(** * Google Street View node: request building, validation, response handling

    A shallow embedding of [google_street_view.py] (class [GoogleStreetView])
    and of the Python built-ins it calls, followed by the properties of the
    validator, the request builder, the response handler and the processing
    step.

    Conventions.
    - A Python [str] is a [string]: a sequence of code points U+0000..U+00FF
      (Latin-1).  [str.lower], [str.strip], [int] and [urllib.parse.quote]
      are given for that range.
    - A parameter value that may be unset is an [option] ([None] is Python's
      [None]).
    - An exception is a value of [exn]; a call that may raise returns a
      [result]. *)

From Stdlib Require Import ZArith NArith List Bool Lia.
From Stdlib Require Import Strings.String Strings.Ascii Strings.Byte.
From Stdlib Require Import Numbers.DecimalPos.
Import ListNotations.

Local Open Scope string_scope.
Local Open Scope Z_scope.

(* ===================================================================== *)
(** ** The Python built-ins used by the node *)
(* ===================================================================== *)

Module Py.

(** Code point of a character. *)
Definition ord (c : ascii) : N := N_of_ascii c.

Definition in_range (lo hi : N) (c : ascii) : bool :=
  ((lo <=? ord c) && (ord c <=? hi))%N.

(** ASCII decimal digits, the only decimal digits below U+0100. *)
Definition is_digit (c : ascii) : bool := in_range 48 57 c.

Definition digit_val (c : ascii) : Z := Z.of_N (ord c) - 48.

(** [str.lower] on one character: A-Z, and U+00C0..U+00DE except U+00D7. *)
Definition lower_char (c : ascii) : ascii :=
  if in_range 65 90 c
     || (in_range 192 222 c && negb (ord c =? 215)%N)
  then ascii_of_N (ord c + 32)
  else c.

(** [s.lower()] *)
Fixpoint lower (s : string) : string :=
  match s with
  | EmptyString => EmptyString
  | String c r => String (lower_char c) (lower r)
  end.

(** [c in s] for a one-character [c]. *)
Fixpoint contains (c : ascii) (s : string) : bool :=
  match s with
  | EmptyString => false
  | String d r => Ascii.eqb d c || contains c r
  end.

(** [s.split(sep)] for a one-character separator: the pieces between the
    occurrences of [sep], in order; always at least one piece. *)
Fixpoint split (sep : ascii) (s : string) : list string :=
  match s with
  | EmptyString => [EmptyString]
  | String c r =>
      if Ascii.eqb c sep then EmptyString :: split sep r
      else match split sep r with
           | p :: ps => String c p :: ps
           | [] => [String c EmptyString]
           end
  end.

(** [sep.join(l)] *)
Fixpoint join (sep : string) (l : list string) : string :=
  match l with
  | [] => EmptyString
  | [x] => x
  | x :: r => x ++ sep ++ join sep r
  end.

(** [str.isspace] on one character (what [str.strip] removes). *)
Definition isspace (c : ascii) : bool :=
  in_range 9 13 c || in_range 28 32 c
  || (ord c =? 133)%N || (ord c =? 160)%N.

Fixpoint lstrip (s : string) : string :=
  match s with
  | EmptyString => EmptyString
  | String c r => if isspace c then lstrip r else s
  end.

Fixpoint rstrip (s : string) : string :=
  match s with
  | EmptyString => EmptyString
  | String c r =>
      match rstrip r with
      | EmptyString => if isspace c then EmptyString else String c EmptyString
      | r' => String c r'
      end
  end.

(** [s.strip()] *)
Definition strip (s : string) : string := rstrip (lstrip s).

(** Truth value of a string that may be [None]: [None] and [""] are false. *)
Definition truthy (v : option string) : bool :=
  match v with
  | None => false
  | Some EmptyString => false
  | Some _ => true
  end.

(** *** [int(s)] on a string, base 10 *)

(** White space [int] skips around the literal: the C locale's [isspace]
    for code points below 127, and the Unicode spaces above (U+0085,
    U+00A0), which the conversion first turns into blanks. *)
Definition int_space (c : ascii) : bool :=
  in_range 9 13 c || (ord c =? 32)%N
  || (ord c =? 133)%N || (ord c =? 160)%N.

Fixpoint skip_space (s : string) : string :=
  match s with
  | EmptyString => EmptyString
  | String c r => if int_space c then skip_space r else s
  end.

(** The run of digits and underscores at the head of [s]: no two
    underscores in a row, none at the end.  Returns the value, the number
    of digits (underscores not counted) and the rest of the string. *)
Fixpoint scan_digits (s : string) (prev_us : bool) (acc : Z) (n : nat)
  : option (Z * nat * string) :=
  match s with
  | EmptyString => if prev_us then None else Some (acc, n, EmptyString)
  | String c r =>
      if is_digit c then scan_digits r false (10 * acc + digit_val c) (S n)
      else if Ascii.eqb c "_" then
        if prev_us then None else scan_digits r true acc n
      else if prev_us then None else Some (acc, n, s)
  end.

Section Int.

(** The interpreter's limit on the digits of a string converted to [int]
    ([sys.get_int_max_str_digits()]: 4300 by default, 0 for no limit). *)
Variable int_max_str_digits : nat.

(** Below this many digits the limit is not consulted
    ([sys.int_info.str_digits_check_threshold]). *)
Definition str_digits_check_threshold : nat := 640.

Definition digits_allowed (n : nat) : bool :=
  negb (Nat.ltb str_digits_check_threshold n
        && Nat.ltb 0 int_max_str_digits
        && Nat.ltb int_max_str_digits n).

(** The unsigned part of the literal, after white space and sign: no
    leading underscore, at least one digit, then only white space. *)
Definition int_unsigned (s : string) : option Z :=
  match s with
  | EmptyString => None
  | String c _ =>
      if Ascii.eqb c "_" then None
      else
        match scan_digits s false 0 0 with
        | Some (v, n, rest) =>
            match skip_space rest with
            | EmptyString =>
                if Nat.eqb n 0 then None
                else if digits_allowed n then Some v else None
            | _ => None
            end
        | None => None
        end
  end.

(** [int(s)]: [None] stands for [ValueError]. *)
Definition int (s : string) : option Z :=
  match skip_space s with
  | EmptyString => None
  | String c r =>
      if Ascii.eqb c "+" then int_unsigned r
      else if Ascii.eqb c "-" then option_map Z.opp (int_unsigned r)
      else int_unsigned (String c r)
  end.

End Int.

(** *** [str(z)] and f-string rendering of an [int] *)

Fixpoint uint_digits (d : Decimal.uint) : string :=
  match d with
  | Decimal.Nil => EmptyString
  | Decimal.D0 r => String "0" (uint_digits r)
  | Decimal.D1 r => String "1" (uint_digits r)
  | Decimal.D2 r => String "2" (uint_digits r)
  | Decimal.D3 r => String "3" (uint_digits r)
  | Decimal.D4 r => String "4" (uint_digits r)
  | Decimal.D5 r => String "5" (uint_digits r)
  | Decimal.D6 r => String "6" (uint_digits r)
  | Decimal.D7 r => String "7" (uint_digits r)
  | Decimal.D8 r => String "8" (uint_digits r)
  | Decimal.D9 r => String "9" (uint_digits r)
  end.

Definition str_int (z : Z) : string :=
  match z with
  | Z0 => "0"
  | Zpos p => uint_digits (Pos.to_uint p)
  | Zneg p => String "-" (uint_digits (Pos.to_uint p))
  end.

(** *** [urllib.parse.quote(s)] with the default [safe='/'] *)

(** UTF-8 bytes of one code point below U+0100. *)
Definition utf8 (c : ascii) : list N :=
  if (ord c <? 128)%N then [ord c]
  else [N.lor 192 (N.shiftr (ord c) 6); N.lor 128 (N.land (ord c) 63)].

(** Bytes [quote] leaves alone: letters, digits, [_.-~] and [/]. *)
Definition quote_safe (b : N) : bool :=
  ((48 <=? b) && (b <=? 57) || (65 <=? b) && (b <=? 90)
   || (97 <=? b) && (b <=? 122)
   || (b =? 95) || (b =? 46) || (b =? 45) || (b =? 126) || (b =? 47))%N.

Definition hex_digit (n : N) : ascii :=
  if (n <? 10)%N then ascii_of_N (48 + n) else ascii_of_N (55 + n).

Definition quote_byte (b : N) : string :=
  if quote_safe b then String (ascii_of_N b) EmptyString
  else String "%" (String (hex_digit (N.shiftr b 4))
                     (String (hex_digit (N.land b 15)) EmptyString)).

Fixpoint quote (s : string) : string :=
  match s with
  | EmptyString => EmptyString
  | String c r => concat EmptyString (map quote_byte (utf8 c)) ++ quote r
  end.

(** *** Slices *)

(** [s[:n]] *)
Fixpoint take (n : nat) (s : string) : string :=
  match n, s with
  | S k, String c r => String c (take k r)
  | _, _ => EmptyString
  end.

(** [s[-n:]] for [n > 0] *)
Definition take_last (n : nat) (s : string) : string :=
  substring (String.length s - n) n s.

End Py.

(* ===================================================================== *)
(** ** The node: [google_street_view.py] *)
(* ===================================================================== *)

Definition SERVICE : string := "Google_Maps".
Definition API_KEY_ENV_VAR : string := "GOOGLE_MAPS_API_KEY".
Definition BASE_URL : string := "https://maps.googleapis.com/maps/api/streetview".

(** Exceptions.  [HostError] is whatever a collaborator raises (the HTTP
    client, the static file store), with its class name and message. *)
Inductive exn : Type :=
| ValueError (msg : string)
| TypeError (msg : string)
| RuntimeError (msg : string) (cause : exn)
| HostError (cls msg : string).

(** [str(e)] *)
Definition str_exn (e : exn) : string :=
  match e with
  | ValueError m | TypeError m | RuntimeError m _ | HostError _ m => m
  end.

Inductive result (A : Type) : Type :=
| Return (a : A)
| Raise (e : exn).
Arguments Return {A} a.
Arguments Raise {A} e.

(** A node instance: the configuration store it reads its key from and the
    current values of its input parameters (lines 30-111).  [address] has
    no default and [heading] defaults to [None]. *)
Record GoogleStreetView : Type := {
  config : string -> string -> option string;
  address : option string;
  size : option string;
  heading : option Z;
  fov : Z;
  pitch : Z;
  radius : Z;
  source : string;
  return_error_code : bool
}.

(** [self.get_config_value(service=..., value=...)] *)
Definition get_config_value (self : GoogleStreetView) (service value : string)
  : option string := config self service value.

(** A node whose parameters are all at the defaults [__init__] declares
    ([size] "600x400", [heading] None, [fov] 90, [pitch] 0, [radius] 50,
    [source] "default", [return_error_code] True), given the configuration
    store and the address. *)
Definition default_parameters (cfg : string -> string -> option string)
           (a : option string) : GoogleStreetView :=
  {| config := cfg; address := a; size := Some "600x400";
     heading := None; fov := 90; pitch := 0; radius := 50;
     source := "default"; return_error_code := true |}.

(** *** [validate_node] and [_validate_size_format] (lines 136-168) *)

Definition missing_key_error : exn :=
  ValueError ("Google Maps API key not found. Please set the "
              ++ API_KEY_ENV_VAR ++ " environment variable.").
Definition address_error : exn := ValueError "Address is required.".
Definition size_error : exn :=
  ValueError "Invalid size format. Use 'widthxheight' (e.g., '600x400').".

Section Validator.

Variable int_max_str_digits : nat.

(** The [try] body; every exception it can raise ([ValueError] from the
    unpacking or from [int]) is caught and gives [False]. *)
Definition _validate_size_format (size : string) : bool :=
  if negb (Py.contains "x" (Py.lower size)) then false
  else
    match Py.split "x" (Py.lower size) with
    | [width; height] =>
        match Py.int int_max_str_digits width,
              Py.int int_max_str_digits height with
        | Some w, Some h => (w >? 0) && (h >? 0) && (w <=? 640) && (h <=? 640)
        | _, _ => false
        end
    | _ => false
    end.

Definition validate_node (self : GoogleStreetView) : option (list exn) :=
  let errors : list exn := [] in
  let api_key := get_config_value self SERVICE API_KEY_ENV_VAR in
  let errors :=
    if negb (Py.truthy api_key) then (errors ++ [missing_key_error])%list
    else errors in
  let errors :=
    if match address self with
       | None => true
       | Some a => negb (Py.truthy (Some a))
                   || negb (Py.truthy (Some (Py.strip a)))
       end
    then (errors ++ [address_error])%list else errors in
  let errors :=
    if match size self with
       | None => false
       | Some s => Py.truthy (Some s) && negb (_validate_size_format s)
       end
    then (errors ++ [size_error])%list else errors in
  match errors with
  | [] => None
  | _ => Some errors
  end.

End Validator.

(** *** [_build_request_url] (lines 170-210) *)

(** The values stored in the [params] dict. *)
Inductive pyval : Type :=
| VNone
| VStr (s : string)
| VInt (z : Z).

Definition of_str (o : option string) : pyval :=
  match o with
  | None => VNone
  | Some s => VStr s
  end.

(** [f"{v}"] *)
Definition format_value (v : pyval) : string :=
  match v with
  | VNone => "None"
  | VStr s => s
  | VInt z => Py.str_int z
  end.

(** A [dict] with string keys, in insertion order. *)
Definition dict : Type := list (string * pyval).

(** [d[k] = v]: an existing key keeps its place, a new one goes last. *)
Fixpoint dict_set (k : string) (v : pyval) (d : dict) : dict :=
  match d with
  | [] => [(k, v)]
  | (k', v') :: r =>
      if String.eqb k' k then (k, v) :: r else (k', v') :: dict_set k v r
  end.

(** [d[k]] *)
Fixpoint dict_get (k : string) (d : dict) : option pyval :=
  match d with
  | [] => None
  | (k', v') :: r => if String.eqb k' k then Some v' else dict_get k r
  end.

(** [f"{k}={v}"] *)
Definition entry (kv : string * pyval) : string :=
  fst kv ++ "=" ++ format_value (snd kv).

(** [params] as line 209 reads it: lines 172-206.  [quote(None)] raises
    [TypeError]. *)
Definition request_params (self : GoogleStreetView) : result dict :=
  let api_key := get_config_value self SERVICE API_KEY_ENV_VAR in
  let params : dict :=
    [("location", of_str (address self));
     ("size", of_str (size self));
     ("key", of_str api_key)] in
  let params :=
    match heading self with
    | Some h => dict_set "heading" (VInt h) params
    | None => params
    end in
  let params :=
    if negb (fov self =? 90) then dict_set "fov" (VInt (fov self)) params
    else params in
  let params :=
    if negb (pitch self =? 0) then dict_set "pitch" (VInt (pitch self)) params
    else params in
  let params :=
    if negb (radius self =? 50)
    then dict_set "radius" (VInt (radius self)) params
    else params in
  let params :=
    if negb (String.eqb (source self) "default")
    then dict_set "source" (VStr (source self)) params
    else params in
  let params :=
    if return_error_code self
    then dict_set "return_error_code" (VStr "true") params
    else params in
  match dict_get "location" params with
  | Some (VStr a) => Return (dict_set "location" (VStr (Py.quote a)) params)
  | _ => Raise (TypeError "quote_from_bytes() expected bytes")
  end.

Definition _build_request_url (self : GoogleStreetView) : result string :=
  match request_params self with
  | Return params =>
      let param_string := Py.join "&" (map entry params) in
      Return (BASE_URL ++ "?" ++ param_string)
  | Raise e => Raise e
  end.

(** *** The host: collaborators and what the node does to them *)

(** [requests.Response]: what the node reads of it. *)
Record Response : Type := {
  status_code : Z;
  content : list byte
}.

(** [ImageUrlArtifact(value=...)] *)
Record ImageUrlArtifact : Type := { value : string }.

(** A value published to an output parameter. *)
Inductive outval : Type :=
| OArtifact (a : ImageUrlArtifact)
| OText (s : string).

(** Calls the node makes on its host, in the order it makes them. *)
Inductive event : Type :=
| Log (level msg : string)
| HttpGet (url : string) (timeout : Z)
| SaveStaticFile (data : list byte) (filename : string)
| Publish (param : string) (v : outval).

(** What the collaborators answer: the HTTP client to
    [requests.get(url, timeout=...)], the static file store to
    [save_static_file(data, filename)] (either may raise), and the clock,
    [int(time.time())]. *)
Record Host : Type := {
  requests_get : string -> Z -> result Response;
  save_static_file : list byte -> string -> result string;
  time_time : Z
}.

(** Computations that log, publish, call the host and may raise: the
    events they produce, in order, and a value or the exception that
    stopped them.  Logging and publishing do not raise. *)
Definition M (A : Type) : Type := (list event * result A)%type.

Definition ret {A : Type} (a : A) : M A := ([], Return a).

Definition raise {A : Type} (e : exn) : M A := ([], Raise e).

Definition bind {A B : Type} (m : M A) (k : A -> M B) : M B :=
  match m with
  | (w, Return a) => let (w', r) := k a in ((w ++ w')%list, r)
  | (w, Raise e) => (w, Raise e)
  end.

(** [try: body except Exception as e: handler(e)] *)
Definition try_except {A : Type} (body : M A) (handler : exn -> M A) : M A :=
  match body with
  | (w, Return a) => (w, Return a)
  | (w, Raise e) => let (w', r) := handler e in ((w ++ w')%list, r)
  end.

Definition emit (ev : event) : M unit := ([ev], Return tt).

(** A call to a collaborator: recorded, then its answer. *)
Definition call {A : Type} (ev : event) (answer : result A) : M A :=
  ([ev], answer).

Definition lift {A : Type} (r : result A) : M A := ([], r).

Declare Scope node_scope.
Delimit Scope node_scope with node.
Notation "x <- m ;; k" := (bind m (fun x => k))
  (at level 61, m at next level, right associativity) : node_scope.
Notation "m ;; k" := (bind m (fun _ => k))
  (at level 61, right associativity) : node_scope.

Definition logger_info (msg : string) : M unit := emit (Log "info" msg).
Definition logger_error (msg : string) : M unit := emit (Log "error" msg).
Definition publish_update_to_parameter (param : string) (v : outval) : M unit :=
  emit (Publish param v).

(** [f"{b}"] for a [bool] *)
Definition format_bool (b : bool) : string := if b then "True" else "False".

(** *** [_handle_api_response] (lines 212-233) *)

Definition _handle_api_response (h : Host) (response : Response) : M string :=
  (if status_code response =? 404 then
     raise (ValueError "No Street View imagery available for this location.")
   else if status_code response =? 400 then
     raise (ValueError "Invalid request parameters.")
   else if status_code response =? 403 then
     raise (ValueError "API key invalid or quota exceeded.")
   else if negb (status_code response =? 200) then
     raise (ValueError ("Street View API error: "
                        ++ Py.str_int (status_code response)))
   else
     let image_data := content response in
     let filename := "streetview_" ++ Py.str_int (time_time h) ++ ".jpg" in
     image_url <- call (SaveStaticFile image_data filename)
                       (save_static_file h image_data filename) ;;
     ret image_url)%node.

(** *** [process] and [fetch_street_view] (lines 235-275) *)

Definition fetch_street_view (h : Host) (self : GoogleStreetView)
  : M ImageUrlArtifact :=
  try_except
    (let api_key := get_config_value self SERVICE API_KEY_ENV_VAR in
     logger_info ("API Key found: " ++ format_bool (Py.truthy api_key)) ;;
     match api_key with
     | Some k =>
         if Py.truthy api_key then
           logger_info ("API Key (first 10 chars): " ++ Py.take 10 k ++ "...") ;;
           logger_info ("API Key (last 4 chars): ..." ++ Py.take_last 4 k)
         else
           logger_error ("No API key found for service '" ++ SERVICE
                         ++ "' with env var '" ++ API_KEY_ENV_VAR ++ "'")
     | None =>
         logger_error ("No API key found for service '" ++ SERVICE
                       ++ "' with env var '" ++ API_KEY_ENV_VAR ++ "'")
     end ;;
     url <- lift (_build_request_url self) ;;
     logger_info ("Requesting Street View image: " ++ url) ;;
     response <- call (HttpGet url 30) (requests_get h url 30) ;;
     image_url <- _handle_api_response h response ;;
     let street_view_artifact := {| value := image_url |} in
     publish_update_to_parameter "street_view_image"
       (OArtifact street_view_artifact) ;;
     publish_update_to_parameter "status"
       (OText ("Street View image fetched successfully for: "
               ++ format_value (of_str (address self)))) ;;
     logger_info ("Street View image saved: " ++ image_url) ;;
     ret street_view_artifact)%node
    (fun e =>
       let error_msg := "Failed to fetch Street View image: " ++ str_exn e in
       logger_error error_msg ;;
       publish_update_to_parameter "status" (OText error_msg) ;;
       raise (RuntimeError error_msg e))%node.

(** [process] is a generator that yields the one callable the host then
    runs. *)
Definition process (h : Host) (self : GoogleStreetView)
  : list (M ImageUrlArtifact) :=
  [fetch_street_view h self].

(* ===================================================================== *)
(** ** Vocabulary of the properties *)
(* ===================================================================== *)

(** Every character of [s] satisfies [p]. *)
Fixpoint all_chars (p : ascii -> bool) (s : string) : bool :=
  match s with
  | EmptyString => true
  | String c r => p c && all_chars p r
  end.

(** [\d+]: a non-empty run of decimal digits. *)
Definition digit_string (s : string) : bool :=
  negb (String.eqb s "") && all_chars Py.is_digit s.

(** The number a run of decimal digits denotes, most significant first. *)
Fixpoint dec_value_from (acc : Z) (s : string) : Z :=
  match s with
  | EmptyString => acc
  | String c r => dec_value_from (10 * acc + Py.digit_val c) r
  end.

Definition dec_value (s : string) : Z := dec_value_from 0 s.

(** The size pattern of the data model, [^\d+x\d+$]: digits, one lower-case
    [x], digits, and nothing else. *)
Fixpoint size_pattern_from (seen_digit : bool) (s : string) : bool :=
  match s with
  | EmptyString => false
  | String c r =>
      if Py.is_digit c then size_pattern_from true r
      else if Ascii.eqb c "x" then seen_digit && digit_string r
      else false
  end.

Definition size_pattern (s : string) : bool := size_pattern_from false s.

(** A dimension the size check accepts. *)
Definition dimension_ok (z : Z) : Prop := 0 < z <= 640.

Definition exn_eq_dec (a b : exn) : {a = b} + {a <> b}.
Proof. decide equality; apply string_dec. Defined.

(** How many times the validator reports [e]; none when it returns [None]. *)
Definition reported (e : exn) (r : option (list exn)) : nat :=
  match r with
  | None => O
  | Some errors => count_occ exn_eq_dec errors e
  end.

(** The three rules of the validator, as conditions on the inputs. *)
Definition credential_missing (self : GoogleStreetView) : bool :=
  match get_config_value self SERVICE API_KEY_ENV_VAR with
  | None => true
  | Some k => String.eqb k ""
  end.

Definition address_blank (self : GoogleStreetView) : bool :=
  match address self with
  | None => true
  | Some a => all_chars Py.isspace a
  end.

Definition size_rejected (int_max_str_digits : nat) (self : GoogleStreetView)
  : bool :=
  match size self with
  | None => false
  | Some s => negb (String.eqb s "")
              && negb (_validate_size_format int_max_str_digits s)
  end.

(** The values published to output [param], in order. *)
Fixpoint published (param : string) (w : list event) : list outval :=
  match w with
  | [] => []
  | Publish p v :: r =>
      if String.eqb p param then v :: published param r else published param r
  | _ :: r => published param r
  end.

(** The node with other values for some of its parameters. *)
Definition with_size (self : GoogleStreetView) (s : option string)
  : GoogleStreetView :=
  {| config := config self; address := address self; size := s;
     heading := heading self; fov := fov self; pitch := pitch self;
     radius := radius self; source := source self;
     return_error_code := return_error_code self |}.

Definition with_view (self : GoogleStreetView) (hd : option Z) (f p r : Z)
  : GoogleStreetView :=
  {| config := config self; address := address self; size := size self;
     heading := hd; fov := f; pitch := p; radius := r;
     source := source self;
     return_error_code := return_error_code self |}.

(** The three entries every query starts with, for address [a]. *)
Definition required_entries (self : GoogleStreetView) (a : string) : dict :=
  [("location", VStr (Py.quote a));
   ("size", of_str (size self));
   ("key", of_str (get_config_value self SERVICE API_KEY_ENV_VAR))].

Definition heading_entry (self : GoogleStreetView) : dict :=
  match heading self with
  | Some h => [("heading", VInt h)]
  | None => []
  end.

Definition fov_entry (self : GoogleStreetView) : dict :=
  if fov self =? 90 then [] else [("fov", VInt (fov self))].

Definition entries_after_fov (self : GoogleStreetView) : dict :=
  ((if pitch self =? 0 then [] else [("pitch", VInt (pitch self))])
   ++ (if radius self =? 50 then [] else [("radius", VInt (radius self))])
   ++ (if String.eqb (source self) "default" then []
       else [("source", VStr (source self))])
   ++ (if return_error_code self then [("return_error_code", VStr "true")]
       else []))%list.

(** The optional entries of the query, in the order the builder adds
    them: [heading] when set, [fov] unless 90, [pitch] unless 0, [radius]
    unless 50, [source] unless ["default"], [return_error_code] when the
    flag is on. *)
Definition optional_entries (self : GoogleStreetView) : dict :=
  (heading_entry self ++ fov_entry self ++ entries_after_fov self)%list.

(** The keys of a dict, in order. *)
Definition keys (d : dict) : list string := map fst d.

(** Rendered entries, each behind its [&]. *)
Fixpoint query_tail (l : list string) : string :=
  match l with
  | [] => EmptyString
  | e :: r => "&" ++ e ++ query_tail r
  end.


(** The errors the three rules call for, in the order they are checked. *)
Definition expected_errors (int_max_str_digits : nat) (self : GoogleStreetView)
  : list exn :=
  ((if credential_missing self then [missing_key_error] else [])
   ++ (if address_blank self then [address_error] else [])
   ++ (if size_rejected int_max_str_digits self then [size_error] else []))%list.


(** A configuration store holding [k] under the node's service and
    variable, and nothing else. *)
Definition config_with (k : option string) (service variable : string)
  : option string :=
  if String.eqb service SERVICE && String.eqb variable API_KEY_ENV_VAR
  then k else None.

(** A node as the end-to-end scenario sets it up: a key, an address, and
    every other parameter at its declared default. *)
Definition sample_node : GoogleStreetView :=
  default_parameters (config_with (Some "AIzaSyExampleKey0123"))
                     (Some "1600 Amphitheatre Pkwy").

(** [n] zeros. *)
Fixpoint zeros (n : nat) : string :=
  match n with
  | O => EmptyString
  | S k => String "0" (zeros k)
  end.

(** A host as the end-to-end scenario mocks it: the HTTP client answers
    200 with the bytes of ["JPEGDATA"], the file store answers a URL under
    [/static/]. *)
Definition sample_body : list byte :=
  [x4a; x50; x45; x47; x44; x41; x54; x41].

Definition sample_host : Host :=
  {| requests_get := fun _ _ =>
       Return {| status_code := 200; content := sample_body |};
     save_static_file := fun _ filename => Return ("/static/" ++ filename);
     time_time := 1700000000 |}.

(** A host whose HTTP client answers with status [code] and no body. *)
Definition host_answering (code : Z) : Host :=
  {| requests_get := fun _ _ => Return {| status_code := code; content := [] |};
     save_static_file := fun _ filename => Return ("/static/" ++ filename);
     time_time := 1700000000 |}.

(** A host whose HTTP client raises (a transport fault). *)
Definition host_unreachable : Host :=
  {| requests_get := fun _ _ =>
       Raise (HostError "ConnectTimeout" "connection timed out");
     save_static_file := fun _ filename => Return ("/static/" ++ filename);
     time_time := 1700000000 |}.

(** The status text of the two paths. *)
Definition success_status (a : string) : string :=
  "Street View image fetched successfully for: " ++ a.

Definition failure_status (e : exn) : string :=
  "Failed to fetch Street View image: " ++ str_exn e.

(** The interpreter's default digit limit. *)
Definition default_max_str_digits : nat := 4300.

(* ===================================================================== *)
(** ** The parameter schema: [__init__] (lines 25-134) *)
(* ===================================================================== *)

Inductive ParameterMode : Type := INPUT | OUTPUT | PROPERTY.

(** The literals of [default_value] and of [ui_options]. *)
Inductive literal : Type :=
| LNone
| LStr (s : string)
| LInt (z : Z)
| LBool (b : bool).

(** [Parameter(...)] (the class name is a reserved word here): the
    keyword arguments the node passes.  A keyword
    left out is the empty list, [None] or [LNone]; [choices] are those of
    the [Options] trait. *)
Record ParameterDecl : Type := {
  name : string;
  input_types : list string;
  type : string;
  output_type : option string;
  default_value : literal;
  tooltip : string;
  allowed_modes : list ParameterMode;
  ui_options : list (string * literal);
  choices : list string
}.

(** What [__init__] adds to the node: a [ParameterGroup] with its
    parameters, or a parameter of its own. *)
Inductive element : Type :=
| ParameterGroup (group_name : string)
                 (group_ui_options : list (string * literal))
                 (members : list ParameterDecl)
| Single (p : ParameterDecl).

Record NodeDeclaration : Type := {
  category : string;
  description : string;
  elements : list element
}.

(** The degree sign, U+00B0, of three tooltips. *)
Definition degree : string := String (ascii_of_N 176) EmptyString.

Definition __init__ : NodeDeclaration :=
  {| category := "Maps/Google";
     description := "Fetch Street View image from Google Street View Static API";
     elements :=
       [ParameterGroup "Location" []
          [{| name := "address"; input_types := ["str"]; type := "str";
              output_type := None; default_value := LNone;
              tooltip := "Street address or coordinates (lat,lng) for Street View";
              allowed_modes := [INPUT; PROPERTY];
              ui_options :=
                [("placeholder_text",
                  LStr "Enter address or lat,lng coordinates...")];
              choices := [] |}];
        ParameterGroup "Image Settings" []
          [{| name := "size"; input_types := ["str"]; type := "str";
              output_type := None; default_value := LStr "600x400";
              tooltip := "Image size in pixels (width x height). Max 640x640 for free tier.";
              allowed_modes := [INPUT; PROPERTY];
              ui_options := [];
              choices := ["400x300"; "600x400"; "640x640"; "800x600"] |};
           {| name := "heading"; input_types := ["int"]; type := "int";
              output_type := None; default_value := LNone;
              tooltip := "Compass heading of camera (0-360" ++ degree
                         ++ "). Auto if not specified.";
              allowed_modes := [INPUT; PROPERTY];
              ui_options := [("min", LInt 0); ("max", LInt 360)];
              choices := [] |};
           {| name := "fov"; input_types := ["int"]; type := "int";
              output_type := None; default_value := LInt 90;
              tooltip := "Field of view in degrees (10-120" ++ degree
                         ++ "). Lower = more zoom.";
              allowed_modes := [INPUT; PROPERTY];
              ui_options := [("min", LInt 10); ("max", LInt 120)];
              choices := [] |};
           {| name := "pitch"; input_types := ["int"]; type := "int";
              output_type := None; default_value := LInt 0;
              tooltip := "Up/down angle (-90 to 90" ++ degree
                         ++ "). 0 = horizontal.";
              allowed_modes := [INPUT; PROPERTY];
              ui_options := [("min", LInt (-90)); ("max", LInt 90)];
              choices := [] |}];
        ParameterGroup "Advanced Settings" [("hide", LBool true)]
          [{| name := "radius"; input_types := ["int"]; type := "int";
              output_type := None; default_value := LInt 50;
              tooltip := "Search radius in meters for finding Street View imagery.";
              allowed_modes := [INPUT; PROPERTY];
              ui_options := [("min", LInt 1); ("max", LInt 1000)];
              choices := [] |};
           {| name := "source"; input_types := ["str"]; type := "str";
              output_type := None; default_value := LStr "default";
              tooltip := "Imagery source restriction.";
              allowed_modes := [INPUT; PROPERTY];
              ui_options := [];
              choices := ["default"; "outdoor"] |};
           {| name := "return_error_code"; input_types := ["bool"];
              type := "bool";
              output_type := None; default_value := LBool true;
              tooltip := "Return error code instead of generic 'no imagery' image.";
              allowed_modes := [INPUT; PROPERTY];
              ui_options := [];
              choices := [] |}];
        Single
          {| name := "street_view_image"; input_types := [];
             type := "ImageUrlArtifact";
             output_type := Some "ImageUrlArtifact"; default_value := LNone;
             tooltip := "Street View image as ImageUrlArtifact";
             allowed_modes := [OUTPUT];
             ui_options :=
               [("is_full_width", LBool true); ("pulse_on_run", LBool true)];
             choices := [] |};
        Single
          {| name := "status"; input_types := []; type := "str";
             output_type := Some "str"; default_value := LNone;
             tooltip := "Status message about the Street View request";
             allowed_modes := [OUTPUT];
             ui_options := [("multiline", LBool true)];
             choices := [] |}] |}.

(** The parameters of the node, in declaration order. *)
Definition parameters (d : NodeDeclaration) : list ParameterDecl :=
  flat_map (fun e => match e with
                     | ParameterGroup _ _ ps => ps
                     | Single p => [p]
                     end) (elements d).

Definition find_parameter (n : string) : option ParameterDecl :=
  find (fun p => String.eqb (name p) n) (parameters __init__).

Definition mode_eqb (a b : ParameterMode) : bool :=
  match a, b with
  | INPUT, INPUT | OUTPUT, OUTPUT | PROPERTY, PROPERTY => true
  | _, _ => false
  end.

Definition has_mode (m : ParameterMode) (p : ParameterDecl) : bool :=
  existsb (mode_eqb m) (allowed_modes p).

(** The value a parameter holds until one is set: its declared default. *)
Definition declared_default (n : string) : literal :=
  match find_parameter n with
  | Some p => default_value p
  | None => LNone
  end.

Definition literal_str (l : literal) : option string :=
  match l with LStr s => Some s | _ => None end.

Definition literal_int (l : literal) : option Z :=
  match l with LInt z => Some z | _ => None end.

(** A node just created: every parameter at its declared default. *)
Definition fresh_node (cfg : string -> string -> option string)
  : GoogleStreetView :=
  {| config := cfg;
     address := literal_str (declared_default "address");
     size := literal_str (declared_default "size");
     heading := literal_int (declared_default "heading");
     fov := match declared_default "fov" with LInt z => z | _ => 0 end;
     pitch := match declared_default "pitch" with LInt z => z | _ => 0 end;
     radius := match declared_default "radius" with LInt z => z | _ => 0 end;
     source := match declared_default "source" with LStr s => s | _ => "" end;
     return_error_code :=
       match declared_default "return_error_code" with
       | LBool b => b
       | _ => false
       end |}.

Definition with_address (self : GoogleStreetView) (a : option string)
  : GoogleStreetView :=
  {| config := config self; address := a; size := size self;
     heading := heading self; fov := fov self; pitch := pitch self;
     radius := radius self; source := source self;
     return_error_code := return_error_code self |}.

(** The kind of value an output of declared type [t] takes. *)
Definition value_fits (t : string) (v : outval) : bool :=
  match v with
  | OArtifact _ => String.eqb t "ImageUrlArtifact"
  | OText _ => String.eqb t "str"
  end.

(* ===================================================================== *)
(** ** Reading a run *)
(* ===================================================================== *)

(** The HTTP requests of a run: URL and timeout. *)
Fixpoint http_calls (w : list event) : list (string * Z) :=
  match w with
  | [] => []
  | HttpGet url t :: r => (url, t) :: http_calls r
  | _ :: r => http_calls r
  end.

(** The files handed to the static file store: bytes and name. *)
Fixpoint file_saves (w : list event) : list (list byte * string) :=
  match w with
  | [] => []
  | SaveStaticFile data f :: r => (data, f) :: file_saves r
  | _ :: r => file_saves r
  end.

(** Every publication of a run: output name and value. *)
Fixpoint publications (w : list event) : list (string * outval) :=
  match w with
  | [] => []
  | Publish p v :: r => (p, v) :: publications r
  | _ :: r => publications r
  end.

(** What a run does besides logging. *)
Fixpoint effects (w : list event) : list event :=
  match w with
  | [] => []
  | Log _ _ :: r => effects r
  | e :: r => e :: effects r
  end.

(** The name [_handle_api_response] gives the file. *)
Definition image_filename (h : Host) : string :=
  "streetview_" ++ Py.str_int (time_time h) ++ ".jpg".

(** How many characters of [s] satisfy [p]. *)
Fixpoint count_chars (p : ascii -> bool) (s : string) : nat :=
  match s with
  | EmptyString => O
  | String c r => ((if p c then 1 else 0) + count_chars p r)%nat
  end.

(** The separator of a size, in either case. *)
Definition is_separator (c : ascii) : bool :=
  Ascii.eqb c "x" || Ascii.eqb c "X".

(** *** Undoing percent-encoding *)



(** No string occurs twice in [l]. *)
Fixpoint distinct (l : list string) : bool :=
  match l with
  | [] => true
  | x :: r => negb (existsb (String.eqb x) r) && distinct r
  end.

(** The characters an integer literal is made of: white space, a sign,
    digits and underscores. *)
Definition int_char (c : ascii) : bool :=
  Py.int_space c || Py.is_digit c
  || Ascii.eqb c "+" || Ascii.eqb c "-" || Ascii.eqb c "_".

(** The characters a size the check accepts is made of. *)
Definition size_char (c : ascii) : bool := int_char c || is_separator c.

(* ===================================================================== *)
(** ** The model on concrete inputs *)
(* ===================================================================== *)

Example int_ex1 : Py.int 4300 " 600" = Some 600. Proof. reflexivity. Qed.
Example int_ex2 : Py.int 4300 "+600" = Some 600. Proof. reflexivity. Qed.
Example int_ex3 : Py.int 4300 "6_0" = Some 60. Proof. reflexivity. Qed.
Example int_ex4 : Py.int 4300 "_60" = None. Proof. reflexivity. Qed.
Example int_ex5 : Py.int 4300 "60_" = None. Proof. reflexivity. Qed.
Example int_ex6 : Py.int 4300 "6__0" = None. Proof. reflexivity. Qed.
Example int_ex7 : Py.int 4300 "- 5" = None. Proof. reflexivity. Qed.
Example int_ex8 : Py.int 4300 "-0" = Some 0. Proof. reflexivity. Qed.
Example int_ex9 : Py.int 4300 "007 " = Some 7. Proof. reflexivity. Qed.
Example int_ex10 : Py.int 4300 "" = None. Proof. reflexivity. Qed.
Example int_ex11 : Py.int 4300 "+" = None. Proof. reflexivity. Qed.
Example int_ex12 : Py.int 4300 "0x10" = None. Proof. reflexivity. Qed.
Example int_ex13 : Py.int 4300 "-12" = Some (-12). Proof. reflexivity. Qed.
Example split_ex1 : Py.split "x" "1x2x3" = ["1"; "2"; "3"]. Proof. reflexivity. Qed.
Example split_ex2 : Py.split "x" "x" = [""; ""]. Proof. reflexivity. Qed.
Example split_ex3 : Py.split "x" "" = [""]. Proof. reflexivity. Qed.
Example quote_ex1 : Py.quote "a b/c~d-e_f.g+&=?%" = "a%20b/c~d-e_f.g%2B%26%3D%3F%25".
Proof. reflexivity. Qed.
Example str_ex1 : Py.str_int 418 = "418". Proof. reflexivity. Qed.
Example str_ex2 : Py.str_int (-90) = "-90". Proof. reflexivity. Qed.
Example take_ex1 : Py.take 10 "abcdefghijklmnop" = "abcdefghij". Proof. reflexivity. Qed.
Example take_ex2 : Py.take_last 4 "abcdefgh" = "efgh". Proof. reflexivity. Qed.
Example take_ex3 : Py.take_last 4 "ab" = "ab". Proof. reflexivity. Qed.
Example strip_ex1 : Py.strip "  a b  " = "a b". Proof. reflexivity. Qed.
Example quote_ex2 : Py.quote "" = "". Proof. reflexivity. Qed.
Example quote_ex3 :
  Py.quote (String (ascii_of_N 160) (String (ascii_of_N 233) "\"))
  = "%C2%A0%C3%A9%5C".
Proof. reflexivity. Qed.
Example lower_ex1 :
  Py.lower (String (ascii_of_N 201) (String (ascii_of_N 215) "Xy"))
  = String (ascii_of_N 233) (String (ascii_of_N 215) "xy").
Proof. reflexivity. Qed.
Example int_ex14 :
  Py.int 4300 (String (ascii_of_N 160) "5") = Some 5
  /\ Py.int 4300 (String (ascii_of_N 28) "5") = None.
Proof. split; reflexivity. Qed.
Example pattern_ex1 : size_pattern "600x400" = true. Proof. reflexivity. Qed.
Example pattern_ex2 : size_pattern "1x2x3" = false. Proof. reflexivity. Qed.
Example pattern_ex3 : size_pattern "x400" = false. Proof. reflexivity. Qed.
Example pattern_ex4 : size_pattern "600x" = false. Proof. reflexivity. Qed.

(** A dimension of 4301 digits, all zeros but the last: the text matches
    the size pattern and denotes 1, and the size check refuses it under
    the default digit limit, while it accepts it with the limit off. *)
Example size_digit_limit :
  size_pattern (zeros 4300 ++ "1x1") = true
  /\ dec_value (zeros 4300 ++ "1") = 1
  /\ _validate_size_format default_max_str_digits (zeros 4300 ++ "1x1")
     = false
  /\ _validate_size_format 0 (zeros 4300 ++ "1x1") = true.
Proof. vm_compute. repeat split. Qed.

(** The end-to-end scenario: status 200 with a body. *)
Example fetch_ex1 :
  fetch_street_view sample_host sample_node
  = ([Log "info" "API Key found: True";
      Log "info" "API Key (first 10 chars): AIzaSyExam...";
      Log "info" "API Key (last 4 chars): ...0123";
      Log "info"
        ("Requesting Street View image: " ++ BASE_URL
         ++ "?location=1600%20Amphitheatre%20Pkwy&size=600x400"
         ++ "&key=AIzaSyExampleKey0123&return_error_code=true");
      HttpGet
        (BASE_URL ++ "?location=1600%20Amphitheatre%20Pkwy&size=600x400"
         ++ "&key=AIzaSyExampleKey0123&return_error_code=true") 30;
      SaveStaticFile sample_body "streetview_1700000000.jpg";
      Publish "street_view_image"
        (OArtifact {| value := "/static/streetview_1700000000.jpg" |});
      Publish "status"
        (OText "Street View image fetched successfully for: 1600 Amphitheatre Pkwy");
      Log "info" "Street View image saved: /static/streetview_1700000000.jpg"],
     Return {| value := "/static/streetview_1700000000.jpg" |}).
Proof. reflexivity. Qed.

(** Credential absent: the validator reports it. *)
Example validate_ex1 :
  validate_node default_max_str_digits
    (default_parameters (config_with None) (Some "1600 Amphitheatre Pkwy"))
  = Some [missing_key_error].
Proof. reflexivity. Qed.

(** All three rules broken at once. *)
Example validate_ex2 :
  validate_node default_max_str_digits
    (with_size (default_parameters (config_with None) (Some "   "))
               (Some "big"))
  = Some [missing_key_error; address_error; size_error].
Proof. reflexivity. Qed.

(* ===================================================================== *)
(** ** Facts about the built-ins *)
(* ===================================================================== *)

Ltac each_char c := destruct c as [[|] [|] [|] [|] [|] [|] [|] [|]].

Lemma digit_char_facts (c : ascii) :
  Py.is_digit c = true ->
  Py.lower_char c = c /\ Ascii.eqb c "x" = false /\ Ascii.eqb c "_" = false
  /\ Ascii.eqb c "+" = false /\ Ascii.eqb c "-" = false
  /\ Py.int_space c = false.
Proof.
  each_char c; vm_compute; intros H; try discriminate H;
    repeat split; reflexivity.
Qed.

Lemma int_space_not_x (c : ascii) :
  Py.int_space c = true -> Ascii.eqb c "x" = false.
Proof. each_char c; vm_compute; intros H; try discriminate H; reflexivity. Qed.

Lemma lower_char_x (c : ascii) :
  Ascii.eqb (Py.lower_char c) "x" = Ascii.eqb c "x" || Ascii.eqb c "X".
Proof. each_char c; vm_compute; reflexivity. Qed.

Lemma append_nil_r (s : string) : s ++ "" = s.
Proof. induction s as [|c r IH]; simpl; [reflexivity | now rewrite IH]. Qed.

Lemma append_assoc (a b c : string) : (a ++ b) ++ c = a ++ b ++ c.
Proof. induction a as [|x r IH]; simpl; [reflexivity | now rewrite IH]. Qed.

(** *** [lower], [contains], [split], [join] *)

Lemma lower_append (a b : string) :
  Py.lower (a ++ b) = Py.lower a ++ Py.lower b.
Proof. induction a as [|x r IH]; simpl; [reflexivity | now rewrite IH]. Qed.

Lemma lower_digits (s : string) :
  all_chars Py.is_digit s = true -> Py.lower s = s.
Proof.
  induction s as [|c r IH]; simpl; intros H; [reflexivity|].
  apply andb_true_iff in H as [Hc Hr].
  destruct (digit_char_facts c Hc) as (-> & _). now rewrite IH.
Qed.

Lemma contains_append (c : ascii) (a b : string) :
  Py.contains c (a ++ b) = Py.contains c a || Py.contains c b.
Proof.
  induction a as [|x r IH]; simpl; [reflexivity|].
  now rewrite IH, orb_assoc.
Qed.

Lemma contains_digits (s : string) :
  all_chars Py.is_digit s = true -> Py.contains "x" s = false.
Proof.
  induction s as [|c r IH]; simpl; intros H; [reflexivity|].
  apply andb_true_iff in H as [Hc Hr].
  destruct (digit_char_facts c Hc) as (_ & -> & _). now rewrite IH.
Qed.

(** [x] occurs in the lower-cased string exactly when [x] or [X] occurs
    in the string. *)
Lemma contains_lower_x (s : string) :
  Py.contains "x" (Py.lower s) = Py.contains "x" s || Py.contains "X" s.
Proof.
  induction s as [|c r IH]; simpl; [reflexivity|].
  rewrite IH, lower_char_x.
  destruct (Ascii.eqb c "x"), (Ascii.eqb c "X"), (Py.contains "x" r),
    (Py.contains "X" r); reflexivity.
Qed.

Lemma split_not_nil (sep : ascii) (s : string) : Py.split sep s <> [].
Proof.
  induction s as [|c r IH]; simpl; [discriminate|].
  destruct (Ascii.eqb c sep); [discriminate|].
  destruct (Py.split sep r); [contradiction | discriminate].
Qed.

Lemma split_no_sep (sep : ascii) (s : string) :
  Py.contains sep s = false -> Py.split sep s = [s].
Proof.
  induction s as [|c r IH]; simpl; intros H; [reflexivity|].
  apply orb_false_iff in H as [Hc Hr].
  rewrite Hc, (IH Hr). reflexivity.
Qed.

Lemma split_at_sep (sep : ascii) (a b : string) :
  Py.contains sep a = false ->
  Py.split sep (a ++ String sep b) = a :: Py.split sep b.
Proof.
  induction a as [|c r IH]; simpl; intros H.
  - now rewrite Ascii.eqb_refl.
  - apply orb_false_iff in H as [Hc Hr].
    rewrite Hc, (IH Hr). reflexivity.
Qed.

(** Joining the pieces with the separator gives the string back. *)
Lemma join_split (sep : ascii) (s : string) :
  Py.join (String sep "") (Py.split sep s) = s.
Proof.
  induction s as [|c r IH]; simpl; [reflexivity|].
  destruct (Ascii.eqb c sep) eqn:E.
  - apply Ascii.eqb_eq in E. subst c.
    destruct (Py.split sep r) as [|p ps] eqn:S.
    + now apply split_not_nil in S.
    + simpl in *. now rewrite IH.
  - destruct (Py.split sep r) as [|p ps] eqn:S.
    + now apply split_not_nil in S.
    + destruct ps as [|q qs]; simpl in *; now rewrite <- IH.
Qed.

(** *** [strip] *)

Lemma lstrip_empty (s : string) :
  Py.lstrip s = "" -> all_chars Py.isspace s = true.
Proof.
  induction s as [|c r IH]; simpl; intros H; [reflexivity|].
  destruct (Py.isspace c); [auto | discriminate].
Qed.

Lemma lstrip_head (s : string) (c : ascii) (r : string) :
  Py.lstrip s = String c r -> Py.isspace c = false.
Proof.
  induction s as [|d t IH]; simpl; intros H; [discriminate|].
  destruct (Py.isspace d) eqn:E; [auto|]. now inversion H; subst.
Qed.

Lemma rstrip_empty (s : string) :
  Py.rstrip s = "" -> all_chars Py.isspace s = true.
Proof.
  induction s as [|c r IH]; simpl; intros H; [reflexivity|].
  destruct (Py.rstrip r); [|discriminate].
  destruct (Py.isspace c); [auto | discriminate].
Qed.

Lemma lstrip_spaces (s : string) :
  all_chars Py.isspace s = true -> Py.lstrip s = "".
Proof.
  induction s as [|c r IH]; simpl; intros H; [reflexivity|].
  apply andb_true_iff in H as [-> Hr]. auto.
Qed.

(** [s.strip()] is empty exactly when [s] is all white space. *)
Lemma strip_empty_iff (s : string) :
  Py.strip s = "" <-> all_chars Py.isspace s = true.
Proof.
  unfold Py.strip. split; intros H.
  - apply rstrip_empty in H.
    destruct (Py.lstrip s) as [|c r] eqn:E.
    + now apply lstrip_empty.
    + apply lstrip_head in E. simpl in H. rewrite E in H. discriminate.
  - now rewrite (lstrip_spaces s H).
Qed.

(** *** [int] *)

Lemma scan_digits_all (w : string) :
  all_chars Py.is_digit w = true ->
  forall (pu : bool) (acc : Z) (n : nat),
    w <> "" \/ pu = false ->
    Py.scan_digits w pu acc n
    = Some (dec_value_from acc w, (n + String.length w)%nat, "").
Proof.
  induction w as [|c r IH]; simpl; intros H pu acc n Hpu.
  - destruct Hpu as [Hne | ->]; [congruence|].
    now rewrite Nat.add_0_r.
  - apply andb_true_iff in H as [Hc Hr]. rewrite Hc.
    rewrite (IH Hr false _ _ (or_intror eq_refl)).
    now rewrite Nat.add_succ_r.
Qed.

Lemma int_unsigned_digit_string (lim : nat) (w : string) :
  digit_string w = true ->
  Py.digits_allowed lim (String.length w) = true ->
  Py.int_unsigned lim w = Some (dec_value w).
Proof.
  unfold digit_string. intros H Hlim.
  apply andb_true_iff in H as [Hne Hall].
  destruct w as [|c r]; [discriminate|].
  pose proof Hall as Hall'. simpl in Hall'.
  apply andb_true_iff in Hall' as [Hc Hr].
  destruct (digit_char_facts c Hc) as (_ & _ & Hus & _).
  unfold Py.int_unsigned. rewrite Hus.
  rewrite (scan_digits_all _ Hall false 0 0%nat (or_intror eq_refl)).
  cbn [Py.skip_space Nat.add]. cbn [String.length Nat.eqb] in *.
  now rewrite Hlim.
Qed.

(** A run of decimal digits within the digit limit reads as its value. *)
Lemma int_digit_string (lim : nat) (w : string) :
  digit_string w = true ->
  Py.digits_allowed lim (String.length w) = true ->
  Py.int lim w = Some (dec_value w).
Proof.
  intros H Hlim. rewrite <- (int_unsigned_digit_string lim w H Hlim).
  unfold digit_string in H. apply andb_true_iff in H as [Hne Hall].
  destruct w as [|c r]; [discriminate|].
  simpl in Hall. apply andb_true_iff in Hall as [Hc Hr].
  destruct (digit_char_facts c Hc) as (_ & _ & _ & Hplus & Hminus & Hsp).
  unfold Py.int. cbn [Py.skip_space]. now rewrite Hsp, Hplus, Hminus.
Qed.

Lemma skip_space_contains_x (s : string) :
  Py.contains "x" (Py.skip_space s) = Py.contains "x" s.
Proof.
  induction s as [|c r IH]; [reflexivity|].
  cbn [Py.skip_space]. destruct (Py.int_space c) eqn:E; [|reflexivity].
  cbn [Py.contains]. now rewrite (int_space_not_x c E).
Qed.

Lemma scan_digits_contains_x (s : string) :
  forall pu acc n v m rest,
    Py.scan_digits s pu acc n = Some (v, m, rest) ->
    Py.contains "x" s = Py.contains "x" rest.
Proof.
  induction s as [|c r IH]; intros pu acc n v m rest; cbn [Py.scan_digits].
  - destruct pu; [discriminate|]. now intros [= _ _ <-].
  - destruct (Py.is_digit c) eqn:Hd.
    + intros H. cbn [Py.contains].
      destruct (digit_char_facts c Hd) as (_ & -> & _). eauto.
    + destruct (Ascii.eqb c "_") eqn:Hu.
      * apply Ascii.eqb_eq in Hu. subst c.
        destruct pu; [discriminate|]. intros H. cbn [Py.contains].
        change (Ascii.eqb "_" "x") with false. eauto.
      * destruct pu; [discriminate|]. now intros [= _ _ <-].
Qed.

Lemma int_unsigned_no_x (lim : nat) (s : string) (v : Z) :
  Py.int_unsigned lim s = Some v -> Py.contains "x" s = false.
Proof.
  unfold Py.int_unsigned. destruct s as [|c r]; [discriminate|].
  destruct (Ascii.eqb c "_"); [discriminate|].
  destruct (Py.scan_digits (String c r) false 0 0) as [[[v' m] rest]|] eqn:S;
    [|discriminate].
  destruct (Py.skip_space rest) eqn:K; [|discriminate].
  intros _. rewrite (scan_digits_contains_x _ _ _ _ _ _ _ S).
  now rewrite <- skip_space_contains_x, K.
Qed.

(** An integer literal has no [x] in it. *)
Lemma int_no_x (lim : nat) (s : string) (v : Z) :
  Py.int lim s = Some v -> Py.contains "x" s = false.
Proof.
  unfold Py.int. rewrite <- (skip_space_contains_x s).
  destruct (Py.skip_space s) as [|c r]; [discriminate|].
  destruct (Ascii.eqb c "+") eqn:P.
  - apply Ascii.eqb_eq in P. subst c. intros H.
    cbn [Py.contains]. change (Ascii.eqb "+" "x") with false.
    now rewrite (int_unsigned_no_x _ _ _ H).
  - destruct (Ascii.eqb c "-") eqn:N.
    + apply Ascii.eqb_eq in N. subst c.
      destruct (Py.int_unsigned lim r) as [u|] eqn:U; [|discriminate].
      intros _. cbn [Py.contains]. change (Ascii.eqb "-" "x") with false.
      now rewrite (int_unsigned_no_x _ _ _ U).
    + apply int_unsigned_no_x.
Qed.

(** *** [str] of an [int] *)

Lemma uint_digits_all (d : Decimal.uint) :
  all_chars Py.is_digit (Py.uint_digits d) = true.
Proof. induction d; cbn [Py.uint_digits all_chars]; auto. Qed.

Lemma dec_value_uint_acc (d : Decimal.uint) :
  forall acc : positive,
    dec_value_from (Zpos acc) (Py.uint_digits d)
    = Zpos (Pos.of_uint_acc d acc).
Proof.
  induction d; intros acc;
    cbn [Py.uint_digits dec_value_from Pos.of_uint_acc];
    [reflexivity
    | rewrite <- IHd; f_equal;
      match goal with
      | |- context [Py.digit_val ?c] =>
          let v := eval vm_compute in (Py.digit_val c) in
          change (Py.digit_val c) with v
      end; lia ..].
Qed.

Lemma dec_value_uint (d : Decimal.uint) :
  dec_value (Py.uint_digits d) = Z.of_N (Pos.of_uint d).
Proof.
  unfold dec_value.
  induction d; cbn [Py.uint_digits dec_value_from Pos.of_uint Z.of_N];
    [reflexivity | exact IHd | apply dec_value_uint_acc ..].
Qed.

Lemma dec_value_to_uint (p : positive) :
  dec_value (Py.uint_digits (Pos.to_uint p)) = Zpos p.
Proof. now rewrite dec_value_uint, DecimalPos.Unsigned.of_to. Qed.

Lemma digit_string_to_uint (p : positive) :
  digit_string (Py.uint_digits (Pos.to_uint p)) = true.
Proof.
  unfold digit_string. rewrite uint_digits_all, andb_true_r.
  pose proof (dec_value_to_uint p) as V.
  destruct (Py.uint_digits (Pos.to_uint p)); [discriminate V | reflexivity].
Qed.

(** Reading back what [str] wrote gives the number, as long as the digit
    limit lets the text be read. *)
Lemma int_str_int (lim : nat) (z : Z) :
  Py.digits_allowed lim (String.length (Py.str_int (Z.abs z))) = true ->
  Py.int lim (Py.str_int z) = Some z.
Proof.
  destruct z as [|p|p]; cbn [Z.abs Py.str_int]; intros Hlim.
  - reflexivity.
  - rewrite (int_digit_string lim _ (digit_string_to_uint p) Hlim).
    now rewrite dec_value_to_uint.
  - unfold Py.int. cbn [Py.skip_space].
    change (Py.int_space "-") with false. cbv iota.
    change (Ascii.eqb "-" "+") with false.
    change (Ascii.eqb "-" "-") with true. cbv iota.
    rewrite (int_unsigned_digit_string lim _ (digit_string_to_uint p) Hlim).
    now rewrite dec_value_to_uint.
Qed.

(* ===================================================================== *)
(** ** The size check *)
(* ===================================================================== *)

Lemma dims_bool (w h : Z) :
  (w >? 0) && (h >? 0) && (w <=? 640) && (h <=? 640) = true
  <-> dimension_ok w /\ dimension_ok h.
Proof. unfold dimension_ok. lia. Qed.

(** What the size check accepts: the lower-cased text is two integer
    literals around one [x], both in 1..640. *)
Lemma validate_size_format_true (lim : nat) (s : string) :
  _validate_size_format lim s = true
  <-> exists (a b : string) (w h : Z),
        Py.lower s = a ++ "x" ++ b
        /\ Py.int lim a = Some w /\ Py.int lim b = Some h
        /\ dimension_ok w /\ dimension_ok h.
Proof.
  unfold _validate_size_format. split.
  - destruct (Py.contains "x" (Py.lower s)); [|discriminate]. simpl negb.
    cbv iota.
    pose proof (join_split "x" (Py.lower s)) as J.
    destruct (Py.split "x" (Py.lower s)) as [|a [|b [|c l]]];
      try discriminate.
    destruct (Py.int lim a) as [w|] eqn:A; [|discriminate].
    destruct (Py.int lim b) as [h|] eqn:B; [|discriminate].
    intros R. apply dims_bool in R. exists a, b, w, h.
    simpl in J. now rewrite <- J.
  - intros (a & b & w & h & L & A & B & R).
    pose proof (int_no_x _ _ _ A) as Xa.
    pose proof (int_no_x _ _ _ B) as Xb.
    rewrite L. rewrite contains_append, Xa. simpl.
    rewrite (split_at_sep "x" a b Xa), (split_no_sep "x" b Xb), A, B.
    now apply dims_bool.
Qed.

(** One [x] between two pieces free of [x] splits a string in one way. *)
Lemma unique_split (a' b' a b : string) :
  Py.contains "x" a' = false -> Py.contains "x" b' = false ->
  a' ++ String "x" b' = a ++ String "x" b -> a = a' /\ b = b'.
Proof.
  revert a. induction a' as [|c r IH]; intros a Ha Hb E.
  - destruct a as [|d a2]; simpl in E.
    + now inversion E.
    + inversion E; subst. rewrite contains_append in Hb. simpl in Hb.
      now rewrite orb_true_r in Hb.
  - simpl in Ha. apply orb_false_iff in Ha as [Hc Hr].
    destruct a as [|d a2]; simpl in E; inversion E; subst.
    + now rewrite Ascii.eqb_refl in Hc.
    + destruct (IH a2 Hr Hb H1) as [-> ->]. now split.
Qed.

Lemma validate_size_format_parts (lim : nat) (s a b : string) :
  Py.lower s = a ++ "x" ++ b ->
  _validate_size_format lim s = true ->
  exists w h, Py.int lim a = Some w /\ Py.int lim b = Some h
              /\ dimension_ok w /\ dimension_ok h.
Proof.
  intros L V. apply validate_size_format_true in V
    as (a' & b' & w & h & L' & A & B & R).
  rewrite L in L'. simpl in L'.
  destruct (unique_split a' b' a b (int_no_x _ _ _ A) (int_no_x _ _ _ B))
    as [-> ->]; [now symmetry|].
  now exists w, h.
Qed.

(* ===================================================================== *)
(** ** The validator *)
(* ===================================================================== *)

Lemma truthy_some (s : string) : Py.truthy (Some s) = negb (String.eqb s "").
Proof. destruct s; reflexivity. Qed.

Lemma credential_rule (self : GoogleStreetView) :
  negb (Py.truthy (get_config_value self SERVICE API_KEY_ENV_VAR))
  = credential_missing self.
Proof.
  unfold credential_missing.
  destruct (get_config_value self SERVICE API_KEY_ENV_VAR) as [k|];
    [|reflexivity].
  now rewrite truthy_some, negb_involutive.
Qed.

Lemma address_rule (a : string) :
  negb (Py.truthy (Some a)) || negb (Py.truthy (Some (Py.strip a)))
  = all_chars Py.isspace a.
Proof.
  rewrite !truthy_some, !negb_involutive.
  destruct (all_chars Py.isspace a) eqn:E.
  - apply strip_empty_iff in E. rewrite E. apply orb_true_r.
  - apply orb_false_iff. split.
    + destruct a; [discriminate E | reflexivity].
    + destruct (Py.strip a) eqn:S; [|reflexivity].
      apply strip_empty_iff in S. congruence.
Qed.

(** The validator returns the errors of the broken rules, in rule order,
    or [None] when there is none. *)
Lemma validate_node_closed (lim : nat) (self : GoogleStreetView) :
  validate_node lim self
  = match expected_errors lim self with
    | [] => None
    | errors => Some errors
    end.
Proof.
  unfold validate_node, expected_errors, size_rejected, address_blank.
  rewrite credential_rule.
  destruct (credential_missing self);
    (destruct (address self) as [a|];
     [rewrite address_rule; destruct (all_chars Py.isspace a)|]);
    (destruct (size self) as [s|];
     [rewrite truthy_some;
      destruct (negb (String.eqb s "") && negb (_validate_size_format lim s))|]);
    reflexivity.
Qed.

Lemma reported_size_error (lim : nat) (self : GoogleStreetView) :
  reported size_error (validate_node lim self)
  = if size_rejected lim self then 1%nat else 0%nat.
Proof.
  rewrite validate_node_closed. unfold expected_errors.
  destruct (credential_missing self), (address_blank self),
    (size_rejected lim self); reflexivity.
Qed.

Lemma size_rejected_with_size (lim : nat) (self : GoogleStreetView)
      (s : string) :
  size_rejected lim (with_size self (Some s))
  = negb (String.eqb s "") && negb (_validate_size_format lim s).
Proof. reflexivity. Qed.

Lemma size_accepted (lim : nat) (self : GoogleStreetView) (s : string) :
  _validate_size_format lim s = true ->
  reported size_error (validate_node lim (with_size self (Some s))) = 0%nat.
Proof.
  intros V. rewrite reported_size_error, size_rejected_with_size, V.
  now rewrite andb_false_r.
Qed.

Lemma size_refused (lim : nat) (self : GoogleStreetView) (s : string) :
  s <> "" -> _validate_size_format lim s = false ->
  reported size_error (validate_node lim (with_size self (Some s))) = 1%nat.
Proof.
  intros Hs V. rewrite reported_size_error, size_rejected_with_size, V.
  destruct (String.eqb s "") eqn:E; [|reflexivity].
  apply String.eqb_eq in E. contradiction.
Qed.

(** C1 (amended): the size errors the validator reports.  For every node
    and every digit limit of the interpreter:
    (1) a size [w ++ "x" ++ h], [w] and [h] runs of decimal digits no
        longer than the digit limit allows, both denoting a number in
        1..640, gets no size error;
    (2) more generally a size whose lower-cased text is [a ++ "x" ++ b]
        with [int(a)] and [int(b)] both defined and in 1..640 gets none;
    (3) a non-empty size with neither [x] nor [X] in it gets exactly one;
    (4) a size whose lower-cased text is [a ++ "x" ++ b] with [int(a)] or
        [int(b)] undefined gets exactly one;
    (5) a size whose lower-cased text is [a ++ "x" ++ b] with [int(a)] or
        [int(b)] at most 0 or above 640 gets exactly one;
    (6) an absent size and the empty size get none. *)
Theorem size_errors_reported (lim : nat) (self : GoogleStreetView) :
  (forall w h : string,
      digit_string w = true -> digit_string h = true ->
      Py.digits_allowed lim (String.length w) = true ->
      Py.digits_allowed lim (String.length h) = true ->
      dimension_ok (dec_value w) -> dimension_ok (dec_value h) ->
      reported size_error
        (validate_node lim (with_size self (Some (w ++ "x" ++ h)))) = 0%nat)
  /\ (forall (s a b : string) (w h : Z),
         Py.lower s = a ++ "x" ++ b ->
         Py.int lim a = Some w -> Py.int lim b = Some h ->
         dimension_ok w -> dimension_ok h ->
         reported size_error
           (validate_node lim (with_size self (Some s))) = 0%nat)
  /\ (forall s : string,
         s <> "" -> Py.contains "x" s = false -> Py.contains "X" s = false ->
         reported size_error
           (validate_node lim (with_size self (Some s))) = 1%nat)
  /\ (forall s a b : string,
         Py.lower s = a ++ "x" ++ b ->
         Py.int lim a = None \/ Py.int lim b = None ->
         reported size_error
           (validate_node lim (with_size self (Some s))) = 1%nat)
  /\ (forall (s a b : string) (w h : Z),
         Py.lower s = a ++ "x" ++ b ->
         Py.int lim a = Some w -> Py.int lim b = Some h ->
         w <= 0 \/ w > 640 \/ h <= 0 \/ h > 640 ->
         reported size_error
           (validate_node lim (with_size self (Some s))) = 1%nat)
  /\ reported size_error (validate_node lim (with_size self None)) = 0%nat
  /\ reported size_error (validate_node lim (with_size self (Some "")))
     = 0%nat.
Proof.
  assert (Accept : forall (s a b : string) (w h : Z),
             Py.lower s = a ++ "x" ++ b ->
             Py.int lim a = Some w -> Py.int lim b = Some h ->
             dimension_ok w -> dimension_ok h ->
             reported size_error
               (validate_node lim (with_size self (Some s))) = 0%nat).
  { intros s a b w h L A B Rw Rh. apply size_accepted.
    apply validate_size_format_true. now exists a, b, w, h. }
  assert (Nonempty : forall s a b : string,
             Py.lower s = a ++ "x" ++ b -> s <> "").
  { intros s a b L ->. destruct a; discriminate L. }
  repeat split.
  - intros w h Dw Dh Lw Lh Rw Rh.
    apply (Accept _ w h (dec_value w) (dec_value h)); auto.
    + unfold digit_string in Dw, Dh.
      apply andb_true_iff in Dw as [_ Dw]. apply andb_true_iff in Dh as [_ Dh].
      rewrite lower_append. cbn [Py.lower append].
      change (Py.lower_char "x") with "x"%char.
      now rewrite (lower_digits w Dw), (lower_digits h Dh).
    + now apply int_digit_string.
    + now apply int_digit_string.
  - exact Accept.
  - intros s Hs Hx HX. apply size_refused; [assumption|].
    unfold _validate_size_format. now rewrite contains_lower_x, Hx, HX.
  - intros s a b L Hnone. apply size_refused; [now apply (Nonempty s a b)|].
    destruct (_validate_size_format lim s) eqn:V; [|reflexivity].
    destruct (validate_size_format_parts lim s a b L V)
      as (w & h & A & B & _).
    destruct Hnone; congruence.
  - intros s a b w h L A B Hout.
    apply size_refused; [now apply (Nonempty s a b)|].
    destruct (_validate_size_format lim s) eqn:V; [|reflexivity].
    destruct (validate_size_format_parts lim s a b L V)
      as (w' & h' & A' & B' & Rw & Rh).
    unfold dimension_ok in *.
    assert (w' = w) by congruence. assert (h' = h) by congruence. lia.
  - now rewrite reported_size_error.
  - now rewrite reported_size_error.
Qed.

Lemma size_errors_reported_witness :
  reported size_error
    (validate_node default_max_str_digits
       (with_size sample_node (Some ("600" ++ "x" ++ "400")))) = 0%nat
  /\ reported size_error
       (validate_node default_max_str_digits
          (with_size sample_node (Some "600X400"))) = 0%nat
  /\ reported size_error
       (validate_node default_max_str_digits
          (with_size sample_node (Some "600400"))) = 1%nat
  /\ reported size_error
       (validate_node default_max_str_digits
          (with_size sample_node (Some "sixx400"))) = 1%nat
  /\ reported size_error
       (validate_node default_max_str_digits
          (with_size sample_node (Some "641x-4"))) = 1%nat.
Proof.
  pose proof (size_errors_reported default_max_str_digits sample_node)
    as (T1 & T2 & T3 & T4 & T5 & _).
  refine (conj _ (conj _ (conj _ (conj _ _)))).
  - apply (T1 "600" "400"); try reflexivity; unfold dimension_ok;
      vm_compute; split; congruence.
  - apply (T2 "600X400" "600" "400" 600 400); try reflexivity;
      unfold dimension_ok; lia.
  - apply (T3 "600400"); [discriminate | reflexivity | reflexivity].
  - apply (T4 "sixx400" "si" "x400"); [reflexivity | left; reflexivity].
  - apply (T5 "641x-4" "641" "-4" 641 (-4)); try reflexivity. lia.
Defined.

(** C1, counterexample: ["600X400"] is not empty, has no [x] in it and
    does not match [^\d+x\d+$], yet the validator reports no size error
    for it (here it reports no error at all). *)
Lemma size_malformed_accepted :
  "600X400" <> ""
  /\ Py.contains "x" "600X400" = false
  /\ size_pattern "600X400" = false
  /\ reported size_error
       (validate_node default_max_str_digits
          (with_size sample_node (Some "600X400"))) <> 1%nat
  /\ validate_node default_max_str_digits
       (with_size sample_node (Some "600X400")) = None.
Proof.
  repeat split; try reflexivity; vm_compute; discriminate.
Qed.

(** C9: strings that do not match [^\d+x\d+$] and that the size check
    accepts, under every digit limit: an upper-case separator, white
    space around a dimension, an explicit sign.  The validator reports
    no size error for them. *)
Theorem size_check_tolerant (lim : nat) (self : GoogleStreetView) :
  (size_pattern "600X400" = false
   /\ _validate_size_format lim "600X400" = true
   /\ reported size_error
        (validate_node lim (with_size self (Some "600X400"))) = 0%nat)
  /\ (size_pattern " 600x400" = false
      /\ _validate_size_format lim " 600x400" = true
      /\ reported size_error
           (validate_node lim (with_size self (Some " 600x400"))) = 0%nat)
  /\ (size_pattern "+600x400" = false
      /\ _validate_size_format lim "+600x400" = true
      /\ reported size_error
           (validate_node lim (with_size self (Some "+600x400"))) = 0%nat).
Proof.
  repeat split; try reflexivity; apply size_accepted; reflexivity.
Qed.


(* ===================================================================== *)
(** ** The request builder *)
(* ===================================================================== *)

Lemma join_query_tail (e : string) (l : list string) :
  Py.join "&" (e :: l) = e ++ query_tail l.
Proof.
  revert e. induction l as [|x r IH]; intros e.
  - simpl. now rewrite append_nil_r.
  - change (Py.join "&" (e :: x :: r)) with (e ++ "&" ++ Py.join "&" (x :: r)).
    now rewrite IH.
Qed.


(** The dict the builder joins: the three required entries, [location]
    percent-encoded, then the optional entries. *)
Lemma request_params_closed (self : GoogleStreetView) (a : string) :
  address self = Some a ->
  request_params self
  = Return (required_entries self a ++ optional_entries self)%list.
Proof.
  intros Ha.
  unfold request_params, required_entries, optional_entries, heading_entry,
    fov_entry, entries_after_fov.
  rewrite Ha.
  destruct (heading self), (fov self =? 90), (pitch self =? 0),
    (radius self =? 50), (String.eqb (source self) "default"),
    (return_error_code self); reflexivity.
Qed.

Lemma request_params_no_address (self : GoogleStreetView) :
  address self = None ->
  request_params self = Raise (TypeError "quote_from_bytes() expected bytes").
Proof.
  intros Ha. unfold request_params. rewrite Ha.
  destruct (heading self), (fov self =? 90), (pitch self =? 0),
    (radius self =? 50), (String.eqb (source self) "default"),
    (return_error_code self); reflexivity.
Qed.

Lemma build_request_url_closed (self : GoogleStreetView) (a : string) :
  address self = Some a ->
  _build_request_url self
  = Return (BASE_URL ++ "?"
            ++ Py.join "&"
                 (map entry
                    (required_entries self a ++ optional_entries self)%list)).
Proof.
  intros Ha. unfold _build_request_url.
  now rewrite (request_params_closed self a Ha).
Qed.

Lemma all_chars_append (p : ascii -> bool) (a b : string) :
  all_chars p (a ++ b) = all_chars p a && all_chars p b.
Proof.
  induction a as [|c r IH]; simpl; [reflexivity|].
  now rewrite IH, andb_assoc.
Qed.



(** The URL in full: every value but the address as it is. *)
Lemma build_request_url_text (self : GoogleStreetView) (a : string) :
  address self = Some a ->
  _build_request_url self
  = Return
      (BASE_URL ++ "?location=" ++ Py.quote a
       ++ "&size=" ++ format_value (of_str (size self))
       ++ "&key="
       ++ format_value (of_str (get_config_value self SERVICE API_KEY_ENV_VAR))
       ++ match heading self with
          | Some h => "&heading=" ++ Py.str_int h
          | None => ""
          end
       ++ (if fov self =? 90 then "" else "&fov=" ++ Py.str_int (fov self))
       ++ (if pitch self =? 0 then ""
           else "&pitch=" ++ Py.str_int (pitch self))
       ++ (if radius self =? 50 then ""
           else "&radius=" ++ Py.str_int (radius self))
       ++ (if String.eqb (source self) "default" then ""
           else "&source=" ++ source self)
       ++ (if return_error_code self then "&return_error_code=true" else "")).
Proof.
  intros Ha. rewrite (build_request_url_closed self a Ha).
  unfold required_entries, optional_entries, heading_entry, fov_entry,
    entries_after_fov.
  destruct (heading self), (fov self =? 90), (pitch self =? 0),
    (radius self =? 50), (String.eqb (source self) "default"),
    (return_error_code self);
    cbn; rewrite ?append_assoc; cbn; rewrite ?append_nil_r; reflexivity.
Qed.

(** C3: with every optional parameter at the value the builder leaves out
    (no heading, fov 90, pitch 0, radius 50, source ["default"], the
    error-code flag off), the dict holds the three entries [location],
    [size], [key] and no other, and the URL is the base endpoint, [?] and
    these three entries. *)
Theorem default_request_url (self : GoogleStreetView) (a s k : string) :
  address self = Some a -> size self = Some s ->
  get_config_value self SERVICE API_KEY_ENV_VAR = Some k ->
  heading self = None -> fov self = 90 -> pitch self = 0 ->
  radius self = 50 -> source self = "default" ->
  return_error_code self = false ->
  request_params self
  = Return [("location", VStr (Py.quote a)); ("size", VStr s); ("key", VStr k)]
  /\ _build_request_url self
     = Return (BASE_URL ++ "?" ++ "location=" ++ Py.quote a
               ++ "&" ++ "size=" ++ s ++ "&" ++ "key=" ++ k).
Proof.
  intros Ha Hs Hk Hh Hf Hp Hr Hsrc Hrec. split.
  - rewrite (request_params_closed self a Ha).
    unfold required_entries, optional_entries, heading_entry, fov_entry,
      entries_after_fov.
    now rewrite Hs, Hk, Hh, Hf, Hp, Hr, Hsrc, Hrec.
  - rewrite (build_request_url_text self a Ha).
    rewrite Hs, Hk, Hh, Hf, Hp, Hr, Hsrc, Hrec. cbn.
    now rewrite !append_nil_r.
Qed.

Lemma default_request_url_witness :
  _build_request_url
    {| config := config_with (Some "KEY"); address := Some "1 Main St";
       size := Some "600x400"; heading := None; fov := 90; pitch := 0;
       radius := 50; source := "default"; return_error_code := false |}
  = Return (BASE_URL ++ "?location=1%20Main%20St&size=600x400&key=KEY").
Proof.
  exact (proj2 (default_request_url
                  {| config := config_with (Some "KEY");
                     address := Some "1 Main St"; size := Some "600x400";
                     heading := None; fov := 90; pitch := 0; radius := 50;
                     source := "default"; return_error_code := false |}
                  "1 Main St" "600x400" "KEY"
                  eq_refl eq_refl eq_refl eq_refl eq_refl eq_refl eq_refl
                  eq_refl eq_refl)).
Defined.









(* ===================================================================== *)
(** ** The response handler and the processing step *)
(* ===================================================================== *)

(** C2: what the response handler does with a status code and a body.
    On 200 it hands exactly the body to the file store, under the name
    [streetview_<seconds>.jpg], and returns what the store returns; on
    any other code it raises [ValueError] without touching the store,
    with the message fixed for 404, 400 and 403 and otherwise
    ["Street View API error: "] followed by the code in decimal. *)
Theorem handle_api_response_by_code (h : Host) (code : Z) (body : list byte) :
  let response := {| status_code := code; content := body |} in
  let filename := "streetview_" ++ Py.str_int (time_time h) ++ ".jpg" in
  (code = 200 ->
   _handle_api_response h response
   = ([SaveStaticFile body filename], save_static_file h body filename))
  /\ (code = 404 ->
      _handle_api_response h response
      = ([], Raise (ValueError
                      "No Street View imagery available for this location.")))
  /\ (code = 400 ->
      _handle_api_response h response
      = ([], Raise (ValueError "Invalid request parameters.")))
  /\ (code = 403 ->
      _handle_api_response h response
      = ([], Raise (ValueError "API key invalid or quota exceeded.")))
  /\ (code <> 200 -> code <> 404 -> code <> 400 -> code <> 403 ->
      _handle_api_response h response
      = ([], Raise (ValueError ("Street View API error: "
                                ++ Py.str_int code)))).
Proof.
  cbv zeta. unfold _handle_api_response. cbn [status_code content].
  refine (conj _ (conj _ (conj _ (conj _ _)))).
  - intros ->. cbn -[append Py.str_int].
    destruct (save_static_file h body _); reflexivity.
  - intros ->. reflexivity.
  - intros ->. reflexivity.
  - intros ->. reflexivity.
  - intros H200 H404 H400 H403.
    destruct (code =? 404) eqn:E1; [lia|].
    destruct (code =? 400) eqn:E2; [lia|].
    destruct (code =? 403) eqn:E3; [lia|].
    destruct (code =? 200) eqn:E4; [lia|]. reflexivity.
Qed.

Lemma handle_api_response_by_code_witness :
  _handle_api_response sample_host {| status_code := 200; content := sample_body |}
  = ([SaveStaticFile sample_body "streetview_1700000000.jpg"],
     Return "/static/streetview_1700000000.jpg")
  /\ _handle_api_response sample_host {| status_code := 404; content := sample_body |}
     = ([], Raise (ValueError
                     "No Street View imagery available for this location."))
  /\ _handle_api_response sample_host {| status_code := 400; content := [] |}
     = ([], Raise (ValueError "Invalid request parameters."))
  /\ _handle_api_response sample_host {| status_code := 403; content := [] |}
     = ([], Raise (ValueError "API key invalid or quota exceeded."))
  /\ _handle_api_response sample_host {| status_code := 418; content := [] |}
     = ([], Raise (ValueError "Street View API error: 418")).
Proof.
  refine (conj _ (conj _ (conj _ (conj _ _)))).
  - exact (proj1 (handle_api_response_by_code sample_host 200 sample_body)
             eq_refl).
  - destruct (handle_api_response_by_code sample_host 404 sample_body)
      as (_ & H & _). exact (H eq_refl).
  - destruct (handle_api_response_by_code sample_host 400 [])
      as (_ & _ & H & _). exact (H eq_refl).
  - destruct (handle_api_response_by_code sample_host 403 [])
      as (_ & _ & _ & H & _). exact (H eq_refl).
  - destruct (handle_api_response_by_code sample_host 418 [])
      as (_ & _ & _ & _ & H). apply H; discriminate.
Defined.

(** What the handler leaves in the trace: at most the call to the file
    store, and it returns only on status 200. *)
Lemma handle_api_response_trace (h : Host) (response : Response) :
  forall param : string,
    published param (fst (_handle_api_response h response)) = [].
Proof.
  intros param. unfold _handle_api_response.
  destruct (status_code response =? 404); [reflexivity|].
  destruct (status_code response =? 400); [reflexivity|].
  destruct (status_code response =? 403); [reflexivity|].
  destruct (status_code response =? 200); [|reflexivity].
  cbn -[append Py.str_int].
  destruct (save_static_file h _ _); reflexivity.
Qed.

Lemma handle_api_response_returns (h : Host) (response : Response)
      (image_url : string) :
  snd (_handle_api_response h response) = Return image_url ->
  status_code response = 200.
Proof.
  unfold _handle_api_response.
  destruct (status_code response =? 404); [discriminate|].
  destruct (status_code response =? 400); [discriminate|].
  destruct (status_code response =? 403); [discriminate|].
  destruct (status_code response =? 200) eqn:E; [lia | discriminate].
Qed.

(** One step of a run: unfold the monad, keep strings and tests folded. *)
Ltac run_step :=
  cbn -[append Py.str_int Py.take Py.take_last Z.eqb BASE_URL
        format_value SERVICE API_KEY_ENV_VAR].

(** The status codes the handler tells apart, then the file store's
    answer on 200. *)
Ltac handler_cases h resp :=
  unfold _handle_api_response;
  destruct (status_code resp =? 404) eqn:?;
  [|destruct (status_code resp =? 400) eqn:?;
    [|destruct (status_code resp =? 403) eqn:?;
      [|destruct (status_code resp =? 200) eqn:?;
        [run_step;
         match goal with
         | |- context [save_static_file ?h' ?d ?f] =>
             destruct (save_static_file h' d f) eqn:?
         end|]]]].

(** Every path through [fetch_street_view]: the address unset or a
    string; the key unset, empty or not; the HTTP client raising or
    answering; the handler's cases. *)
Ltac fetch_cases h self :=
  unfold fetch_street_view;
  let a := fresh "a" in
  let Ha := fresh "Ha" in
  destruct (address self) as [a|] eqn:Ha;
  [ rewrite (build_request_url_closed self a Ha);
    match goal with
    | |- context [Return (BASE_URL ++ ?q)] =>
        let url := fresh "url" in
        generalize (BASE_URL ++ q); intros url
    end
  | unfold _build_request_url; rewrite (request_params_no_address self Ha) ];
  destruct (get_config_value self SERVICE API_KEY_ENV_VAR) as [[|? ?]|];
  run_step;
  try (match goal with
       | |- context [requests_get ?h' ?u ?t] =>
           let resp := fresh "resp" in
           let e := fresh "e" in
           destruct (requests_get h' u t) as [resp|e] eqn:?;
           [ handler_cases h resp | ]
       end);
  run_step.

(** C5: the processing step yields one callable, and a run of it
    publishes [status] exactly once.
    When the run returns, the one status is the success text naming the
    address; when it raises, what it raises is [RuntimeError] with the
    failure text for the exception that was caught, that text is the one
    status, and publishing it is the last thing done before raising. *)
Theorem status_published_once (h : Host) (self : GoogleStreetView) :
  let run := fetch_street_view h self in
  process h self = [run]
  /\ List.length (published "status" (fst run)) = 1%nat
  /\ match snd run with
     | Return _ =>
         exists a : string,
           address self = Some a
           /\ published "status" (fst run) = [OText (success_status a)]
     | Raise e =>
         exists cause : exn,
           e = RuntimeError (failure_status cause) cause
           /\ published "status" (fst run) = [OText (failure_status cause)]
           /\ List.last (fst run) (Log "" "")
              = Publish "status" (OText (failure_status cause))
     end.
Proof.
  cbv zeta. split; [reflexivity|].
  fetch_cases h self;
    (split; [reflexivity|]);
    lazymatch goal with
    | |- exists cause, RuntimeError _ ?c = _ /\ _ =>
        exists c; split; [reflexivity|]; split; reflexivity
    | |- exists a, ?x = Some a /\ _ =>
        eexists; split; reflexivity
    end.
Qed.

(** C6: the image output is published only by a run that returns, and
    then once, with the artifact returned.  In particular, when the HTTP
    client raises, or answers with a status other than 200, for the URL
    the node built, the run raises and [street_view_image] is never
    published. *)
Theorem image_published_only_on_success (h : Host) (self : GoogleStreetView) :
  let run := fetch_street_view h self in
  published "street_view_image" (fst run)
  = match snd run with
    | Return artifact => [OArtifact artifact]
    | Raise _ => []
    end
  /\ forall url : string,
      _build_request_url self = Return url ->
      (exists e, requests_get h url 30 = Raise e)
      \/ (exists response,
             requests_get h url 30 = Return response
             /\ status_code response <> 200) ->
      published "street_view_image" (fst run) = []
      /\ exists e, snd run = Raise e.
Proof.
  cbv zeta. split.
  - fetch_cases h self; reflexivity.
  - intros url Hurl Hfail. unfold fetch_street_view. rewrite Hurl.
    destruct (get_config_value self SERVICE API_KEY_ENV_VAR) as [[|? ?]|];
      run_step;
      (destruct Hfail as [[e G] | (resp & G & Hcode)]; rewrite G;
       [ run_step; split; [reflexivity | eexists; reflexivity]
       | handler_cases h resp; run_step;
         try (split; [reflexivity | eexists; reflexivity]); lia ]).
Qed.

Lemma image_published_only_on_success_witness :
  (published "street_view_image"
     (fst (fetch_street_view host_unreachable sample_node)) = []
   /\ exists e, snd (fetch_street_view host_unreachable sample_node) = Raise e)
  /\ (published "street_view_image"
        (fst (fetch_street_view (host_answering 404) sample_node)) = []
      /\ exists e,
          snd (fetch_street_view (host_answering 404) sample_node) = Raise e).
Proof.
  split.
  - destruct (image_published_only_on_success host_unreachable sample_node)
      as [_ H].
    apply (H (BASE_URL
              ++ "?location=1600%20Amphitheatre%20Pkwy&size=600x400"
              ++ "&key=AIzaSyExampleKey0123&return_error_code=true")
             eq_refl).
    left. eexists. reflexivity.
  - destruct (image_published_only_on_success (host_answering 404) sample_node)
      as [_ H].
    apply (H (BASE_URL
              ++ "?location=1600%20Amphitheatre%20Pkwy&size=600x400"
              ++ "&key=AIzaSyExampleKey0123&return_error_code=true")
             eq_refl).
    right. eexists. split; [reflexivity | discriminate].
Defined.

(* ===================================================================== *)
(** ** Further properties: the schema and the validator *)
(* ===================================================================== *)

(** How often each of the three errors is reported. *)
Lemma validator_rules (lim : nat) (self : GoogleStreetView) :
  reported missing_key_error (validate_node lim self)
  = (if credential_missing self then 1%nat else 0%nat)
  /\ reported address_error (validate_node lim self)
     = (if address_blank self then 1%nat else 0%nat)
  /\ reported size_error (validate_node lim self)
     = (if size_rejected lim self then 1%nat else 0%nat).
Proof.
  rewrite validate_node_closed. unfold expected_errors.
  destruct (credential_missing self), (address_blank self),
    (size_rejected lim self); cbn; repeat split.
Qed.

Lemma validate_node_none (lim : nat) (self : GoogleStreetView) :
  validate_node lim self = None
  <-> credential_missing self = false /\ address_blank self = false
      /\ size_rejected lim self = false.
Proof.
  rewrite validate_node_closed. unfold expected_errors.
  destruct (credential_missing self), (address_blank self),
    (size_rejected lim self); cbn; split;
    try discriminate; try (intros (? & ? & ?); discriminate); auto.
Qed.

(** X1: of the four sizes the [size] parameter offers, the size check
    accepts three and refuses ["800x600"], under every digit limit; a
    node set to that offered size gets a size error from the validator. *)
Theorem offered_sizes_checked (lim : nat) :
  exists p : ParameterDecl,
    find_parameter "size" = Some p
    /\ filter (_validate_size_format lim) (choices p)
       = ["400x300"; "600x400"; "640x640"]
    /\ filter (fun s => negb (_validate_size_format lim s)) (choices p)
       = ["800x600"]
    /\ forall self : GoogleStreetView,
        reported size_error
          (validate_node lim (with_size self (Some "800x600"))) = 1%nat.
Proof.
  eexists. split; [reflexivity|].
  split; [reflexivity|]. split; [reflexivity|].
  intros self. apply size_refused; [discriminate | reflexivity].
Qed.

(** X2: a node just created, every parameter at its declared default,
    has no address: the validator reports the address error (and no size
    error, the default size being valid), the builder raises [TypeError],
    and a run makes no HTTP request and publishes the failure text for
    that [TypeError] as its status. *)
Theorem fresh_node_has_no_address
        (lim : nat) (cfg : string -> string -> option string) (h : Host) :
  fresh_node cfg = default_parameters cfg None
  /\ reported address_error (validate_node lim (fresh_node cfg)) = 1%nat
  /\ reported size_error (validate_node lim (fresh_node cfg)) = 0%nat
  /\ _build_request_url (fresh_node cfg)
     = Raise (TypeError "quote_from_bytes() expected bytes")
  /\ http_calls (fst (fetch_street_view h (fresh_node cfg))) = []
  /\ published "status" (fst (fetch_street_view h (fresh_node cfg)))
     = [OText (failure_status
                 (TypeError "quote_from_bytes() expected bytes"))].
Proof.
  split; [reflexivity|].
  change (fresh_node cfg) with (default_parameters cfg None).
  split.
  { destruct (validator_rules lim (default_parameters cfg None))
      as (_ & -> & _). reflexivity. }
  split.
  { destruct (validator_rules lim (default_parameters cfg None))
      as (_ & _ & ->). reflexivity. }
  split; [reflexivity|].
  unfold fetch_street_view.
  change (_build_request_url (default_parameters cfg None))
    with (@Raise string (TypeError "quote_from_bytes() expected bytes")).
  destruct (get_config_value (default_parameters cfg None) SERVICE
              API_KEY_ENV_VAR) as [[|c k]|]; split; reflexivity.
Qed.

(** The URL as its three required entries and the optional ones behind. *)
Lemma build_request_url_tail (self : GoogleStreetView) (a : string) :
  address self = Some a ->
  _build_request_url self
  = Return (BASE_URL ++ "?location=" ++ Py.quote a
            ++ "&size=" ++ format_value (of_str (size self))
            ++ "&key="
            ++ format_value
                 (of_str (get_config_value self SERVICE API_KEY_ENV_VAR))
            ++ query_tail (map entry (optional_entries self))).
Proof.
  intros Ha. rewrite (build_request_url_closed self a Ha).
  unfold required_entries. cbn [app map].
  rewrite join_query_tail. cbn [query_tail entry fst snd format_value].
  cbn [append]. rewrite ?append_assoc. reflexivity.
Qed.

Lemma eqb_empty_false (k : string) : k <> "" -> String.eqb k "" = false.
Proof. intros H. now apply String.eqb_neq. Qed.

(** X3: a node at its declared defaults, given a non-empty key and an
    address that is not blank, passes validation, and its URL carries
    the three required entries and [return_error_code=true], the flag
    being on by default. *)
Theorem default_node_request (lim : nat) (k a : string) :
  k <> "" -> all_chars Py.isspace a = false ->
  let self := with_address (fresh_node (config_with (Some k))) (Some a) in
  validate_node lim self = None
  /\ _build_request_url self
     = Return (BASE_URL ++ "?location=" ++ Py.quote a
               ++ "&size=600x400&key=" ++ k ++ "&return_error_code=true").
Proof.
  intros Hk Ha. cbv zeta. split.
  - apply validate_node_none.
    unfold credential_missing, address_blank, size_rejected.
    cbn [address size with_address fresh_node get_config_value config].
    change (config_with (Some k) SERVICE API_KEY_ENV_VAR) with (Some k).
    cbv iota beta. rewrite (eqb_empty_false k Hk).
    split; [reflexivity|]. split; [exact Ha | reflexivity].
  - rewrite (build_request_url_tail
               (with_address (fresh_node (config_with (Some k))) (Some a))
               a eq_refl).
    cbn. rewrite ?append_nil_r. reflexivity.
Qed.

Lemma default_node_request_witness :
  validate_node default_max_str_digits sample_node = None
  /\ _build_request_url sample_node
     = Return (BASE_URL
               ++ "?location=1600%20Amphitheatre%20Pkwy&size=600x400"
               ++ "&key=AIzaSyExampleKey0123&return_error_code=true").
Proof.
  apply (default_node_request default_max_str_digits
           "AIzaSyExampleKey0123" "1600 Amphitheatre Pkwy").
  - discriminate.
  - reflexivity.
Defined.





(* ===================================================================== *)
(** ** Further properties: the request builder *)
(* ===================================================================== *)

Lemma distinct_NoDup (l : list string) : distinct l = true -> NoDup l.
Proof.
  induction l as [|x r IH]; cbn [distinct]; intros H; [constructor|].
  apply andb_true_iff in H as [Hx Hr]. constructor; [|auto].
  intros Hin. apply negb_true_iff in Hx.
  assert (existsb (String.eqb x) r = true) as E.
  { apply existsb_exists. exists x. split; [exact Hin|]. apply String.eqb_refl. }
  congruence.
Qed.

(** X6: the dict the builder joins never holds a key twice; it starts
    with [location], [size], [key] in this order, holds three to nine
    entries, and its [location] is the percent-encoded address. *)
Theorem request_params_keys (self : GoogleStreetView) (params : dict) :
  request_params self = Return params ->
  NoDup (keys params)
  /\ firstn 3 (keys params) = ["location"; "size"; "key"]
  /\ (3 <= List.length params <= 9)%nat
  /\ exists a : string,
      address self = Some a
      /\ dict_get "location" params = Some (VStr (Py.quote a)).
Proof.
  destruct (address self) as [a|] eqn:Ha;
    [|rewrite (request_params_no_address self Ha); discriminate].
  rewrite (request_params_closed self a Ha). intros [= <-].
  assert (K : NoDup (keys (required_entries self a
                                 ++ optional_entries self)%list)
              /\ (3 <= List.length
                         (required_entries self a ++ optional_entries self)%list
                  <= 9)%nat).
  { unfold keys, required_entries, optional_entries, heading_entry,
      fov_entry, entries_after_fov.
    destruct (heading self), (fov self =? 90), (pitch self =? 0),
      (radius self =? 50), (String.eqb (source self) "default"),
      (return_error_code self);
      (split; [apply distinct_NoDup; reflexivity | cbn; lia]). }
  destruct K as [K1 K2].
  split; [exact K1|]. split; [reflexivity|]. split; [exact K2|].
  exists a. split; reflexivity.
Qed.

Lemma request_params_keys_witness :
  NoDup ["location"; "size"; "key"; "heading"; "fov"; "return_error_code"]
  /\ dict_get "location"
       [("location", VStr "1600%20Amphitheatre%20Pkwy");
        ("size", VStr "600x400"); ("key", VStr "AIzaSyExampleKey0123");
        ("heading", VInt 10); ("fov", VInt 60);
        ("return_error_code", VStr "true")]
     = Some (VStr "1600%20Amphitheatre%20Pkwy").
Proof.
  destruct (request_params_keys
              (with_view sample_node (Some 10) 60 0 50)
              [("location", VStr "1600%20Amphitheatre%20Pkwy");
               ("size", VStr "600x400"); ("key", VStr "AIzaSyExampleKey0123");
               ("heading", VInt 10); ("fov", VInt 60);
               ("return_error_code", VStr "true")] eq_refl)
    as (N & _ & _ & a & Ha & G).
  split; [exact N|]. injection Ha as <-. exact G.
Defined.




Lemma quote_safe_char (c : ascii) :
  Py.quote_safe (Py.ord c) = true ->
  concat "" (map Py.quote_byte (Py.utf8 c)) = String c "".
Proof. each_char c; vm_compute; intros H; try discriminate H; reflexivity. Qed.

(** X8: [quote] works character by character, so encoding a
    concatenation is concatenating the encodings; and an address made
    only of letters, digits, [_ . - ~] and [/] is sent as it is. *)
Theorem quote_keeps_unreserved (self : GoogleStreetView) (a b : string) :
  Py.quote (a ++ b) = Py.quote a ++ Py.quote b
  /\ (all_chars (fun c => Py.quote_safe (Py.ord c)) a = true ->
      Py.quote a = a
      /\ (address self = Some a ->
          request_params self
          = Return (("location", VStr a)
                      :: ("size", of_str (size self))
                      :: ("key", of_str (get_config_value self SERVICE
                                           API_KEY_ENV_VAR))
                      :: optional_entries self))).
Proof.
  split.
  - induction a as [|c r IH]; [reflexivity|].
    cbn [append Py.quote]. now rewrite IH, append_assoc.
  - intros H.
    assert (Q : Py.quote a = a).
    { clear b. induction a as [|c r IH]; [reflexivity|].
      cbn [all_chars] in H. apply andb_true_iff in H as [Hc Hr].
      cbn [Py.quote]. now rewrite (quote_safe_char c Hc), (IH Hr). }
    split; [exact Q|]. intros Ha.
    rewrite (request_params_closed self a Ha). unfold required_entries.
    now rewrite Q.
Qed.

Lemma quote_keeps_unreserved_witness :
  Py.quote "40.7128/-74.0060" = "40.7128/-74.0060".
Proof.
  exact (proj1 (proj2 (quote_keeps_unreserved sample_node
                         "40.7128/-74.0060" "") eq_refl)).
Defined.

(** *** The address can be read back from the URL *)








(* ===================================================================== *)
(** ** Further properties: a run of the processing step *)
(* ===================================================================== *)

(** Every path of a run, by what the builder, the HTTP client, the
    handler and the file store answer. *)
Ltac run_cases h self :=
  unfold fetch_street_view;
  let url := fresh "url" in
  let e0 := fresh "e" in
  destruct (_build_request_url self) as [url|e0] eqn:?;
  destruct (get_config_value self SERVICE API_KEY_ENV_VAR) as [[|? ?]|];
  run_step;
  try (let resp := fresh "resp" in
       let e := fresh "e" in
       destruct (requests_get h url 30) as [resp|e] eqn:?;
       [ handler_cases h resp | ]);
  run_step.

(** X10: a run makes one HTTP request, for the URL the builder returned
    and with a timeout of 30, and none at all when the builder raised;
    it never asks twice. *)
Theorem one_request_per_run (h : Host) (self : GoogleStreetView) :
  http_calls (fst (fetch_street_view h self))
  = match _build_request_url self with
    | Return url => [(url, 30)]
    | Raise _ => []
    end.
Proof. run_cases h self; reflexivity. Qed.

(** X11: a run hands a file to the static file store only when the HTTP
    client answered 200, and then once: the body of the answer, under
    the name [streetview_<seconds>.jpg]. *)
Theorem file_saved_only_on_200 (h : Host) (self : GoogleStreetView) :
  file_saves (fst (fetch_street_view h self))
  = match _build_request_url self with
    | Return url =>
        match requests_get h url 30 with
        | Return response =>
            if status_code response =? 200
            then [(content response, image_filename h)]
            else []
        | Raise _ => []
        end
    | Raise _ => []
    end.
Proof.
  run_cases h self;
    repeat match goal with
      | H : (_ =? _) = true |- _ => apply Z.eqb_eq in H; rewrite H
      end;
    reflexivity.
Qed.



(** X13: the status a failed run leaves names its cause.  With the
    address unset it is the failure text for the builder's [TypeError];
    when the HTTP client raises, the failure text for what it raised;
    when the handler raises (a status other than 200, or the file store
    failing), the failure text for what the handler raised.  Each time
    the run raises [RuntimeError] with that text and that cause. *)
Theorem failure_status_names_cause (h : Host) (self : GoogleStreetView) :
  let run := fetch_street_view h self in
  (forall e, _build_request_url self = Raise e ->
             published "status" (fst run) = [OText (failure_status e)]
             /\ snd run = Raise (RuntimeError (failure_status e) e))
  /\ (forall url e,
         _build_request_url self = Return url ->
         requests_get h url 30 = Raise e ->
         published "status" (fst run) = [OText (failure_status e)]
         /\ snd run = Raise (RuntimeError (failure_status e) e))
  /\ (forall url response e,
         _build_request_url self = Return url ->
         requests_get h url 30 = Return response ->
         snd (_handle_api_response h response) = Raise e ->
         published "status" (fst run) = [OText (failure_status e)]
         /\ snd run = Raise (RuntimeError (failure_status e) e)).
Proof.
  cbv zeta. refine (conj _ (conj _ _)).
  - intros e Hb. unfold fetch_street_view. rewrite Hb.
    destruct (get_config_value self SERVICE API_KEY_ENV_VAR) as [[|? ?]|];
      split; reflexivity.
  - intros url e Hb Hg. unfold fetch_street_view. rewrite Hb.
    destruct (get_config_value self SERVICE API_KEY_ENV_VAR) as [[|? ?]|];
      run_step; rewrite Hg; split; reflexivity.
  - intros url resp e Hb Hg Hh. unfold fetch_street_view. rewrite Hb.
    destruct (get_config_value self SERVICE API_KEY_ENV_VAR) as [[|? ?]|];
      run_step; rewrite Hg; revert Hh; handler_cases h resp; run_step;
      intros Hh; try discriminate Hh; injection Hh as <-; split; reflexivity.
Qed.

Lemma failure_status_names_cause_witness :
  published "status" (fst (fetch_street_view (host_answering 404) sample_node))
  = [OText ("Failed to fetch Street View image: "
            ++ "No Street View imagery available for this location.")]
  /\ published "status" (fst (fetch_street_view host_unreachable sample_node))
     = [OText "Failed to fetch Street View image: connection timed out"].
Proof.
  destruct (failure_status_names_cause (host_answering 404) sample_node)
    as (_ & _ & H3).
  destruct (failure_status_names_cause host_unreachable sample_node)
    as (_ & H2 & _).
  split.
  - exact (proj1 (H3 _ _ _ eq_refl eq_refl eq_refl)).
  - exact (proj1 (H2 _ _ eq_refl eq_refl)).
Defined.

(** X14: a run returns exactly when the builder returned a URL, the HTTP
    client answered it with status 200 and the file store returned a
    reference for the body; what the run returns is the artifact around
    that reference. *)
Theorem run_returns_iff
        (h : Host) (self : GoogleStreetView) (artifact : ImageUrlArtifact) :
  snd (fetch_street_view h self) = Return artifact
  <-> exists url response image_url,
        _build_request_url self = Return url
        /\ requests_get h url 30 = Return response
        /\ status_code response = 200
        /\ save_static_file h (content response) (image_filename h)
           = Return image_url
        /\ artifact = {| value := image_url |}.
Proof.
  split.
  - run_cases h self; intros H; try discriminate H;
      injection H as <-;
      repeat match goal with
        | H : (_ =? 200) = true |- _ => apply Z.eqb_eq in H
        end;
      do 3 eexists; repeat split; eassumption.
  - intros (url & resp & image_url & Hb & Hg & Hc & Hs & ->).
    unfold fetch_street_view, _handle_api_response, image_filename in *.
    rewrite Hb.
    destruct (get_config_value self SERVICE API_KEY_ENV_VAR) as [[|? ?]|];
      run_step; rewrite Hg, Hc; run_step; rewrite Hs; reflexivity.
Qed.

(** X15: whatever a run publishes goes to a parameter [__init__]
    declares as an output and not as an input, with a value of the
    parameter's declared type: an artifact for [street_view_image], a
    text for [status]. *)
Theorem publications_fit_schema
        (h : Host) (self : GoogleStreetView) (p : string) (v : outval) :
  In (p, v) (publications (fst (fetch_street_view h self))) ->
  exists d : ParameterDecl,
    find_parameter p = Some d
    /\ has_mode OUTPUT d = true /\ has_mode INPUT d = false
    /\ value_fits (type d) v = true.
Proof.
  run_cases h self; intros H;
    repeat match goal with
      | H : _ \/ _ |- _ => destruct H as [H|H]
      | H : False |- _ => destruct H
      | H : (_, _) = (_, _) |- _ => injection H as <- <-
      end;
    eexists; (split; [reflexivity|]); repeat split.
Qed.

Lemma publications_fit_schema_witness :
  exists d : ParameterDecl,
    find_parameter "street_view_image" = Some d
    /\ has_mode OUTPUT d = true /\ has_mode INPUT d = false
    /\ value_fits (type d)
         (OArtifact {| value := "/static/streetview_1700000000.jpg" |})
       = true.
Proof.
  apply (publications_fit_schema sample_host sample_node).
  left. reflexivity.
Defined.



(** X20: apart from logging, a run does the following and nothing else,
    in this order: the HTTP request, unless the builder raised; what the
    handler does with the answer (the call to the file store on 200),
    unless the HTTP client raised; then, if the handler returned a
    reference, the image is published before the success status, and in
    every other case the failure status alone is published. *)
Theorem run_effects_in_order (h : Host) (self : GoogleStreetView) :
  effects (fst (fetch_street_view h self))
  = match _build_request_url self with
    | Raise e => [Publish "status" (OText (failure_status e))]
    | Return url =>
        HttpGet url 30
        :: match requests_get h url 30 with
           | Raise e => [Publish "status" (OText (failure_status e))]
           | Return response =>
               match _handle_api_response h response with
               | (w, Return image_url) =>
                   w ++ [Publish "street_view_image"
                           (OArtifact {| value := image_url |});
                         Publish "status"
                           (OText (success_status
                                     (format_value (of_str (address self)))))]
               | (w, Raise e) =>
                   w ++ [Publish "status" (OText (failure_status e))]
               end
           end
    end%list.
Proof. run_cases h self; reflexivity. Qed.

(* ===================================================================== *)
(** ** Further properties: what the size check accepts *)
(* ===================================================================== *)

Lemma count_chars_append (p : ascii -> bool) (a b : string) :
  count_chars p (a ++ b) = (count_chars p a + count_chars p b)%nat.
Proof.
  induction a as [|c r IH]; cbn [append count_chars]; [reflexivity|].
  rewrite IH. lia.
Qed.

Lemma count_chars_lower_x (s : string) :
  count_chars (fun c => Ascii.eqb c "x") (Py.lower s)
  = count_chars is_separator s.
Proof.
  induction s as [|c r IH]; cbn [Py.lower count_chars]; [reflexivity|].
  unfold is_separator at 1. now rewrite lower_char_x, IH.
Qed.

Lemma count_chars_absent (s : string) :
  Py.contains "x" s = false ->
  count_chars (fun c => Ascii.eqb c "x") s = 0%nat.
Proof.
  induction s as [|c r IH]; cbn [Py.contains count_chars]; intros H;
    [reflexivity|].
  apply orb_false_iff in H as [-> Hr]. now rewrite (IH Hr).
Qed.

(** X17: a size the check accepts holds exactly one separator, counting
    [x] and [X] alike: none, or a second one, and the size is refused. *)
Theorem accepted_size_one_separator (lim : nat) (s : string) :
  _validate_size_format lim s = true ->
  count_chars is_separator s = 1%nat.
Proof.
  intros V. apply validate_size_format_true in V
    as (a & b & w & h & L & A & B & _).
  rewrite <- count_chars_lower_x, L.
  cbn [append]. rewrite count_chars_append. cbn [count_chars].
  rewrite (count_chars_absent a (int_no_x _ _ _ A)),
    (count_chars_absent b (int_no_x _ _ _ B)).
  reflexivity.
Qed.

Lemma accepted_size_one_separator_witness :
  count_chars is_separator " 640X+6_4 " = 1%nat.
Proof.
  exact (accepted_size_one_separator default_max_str_digits " 640X+6_4 "
           eq_refl).
Defined.

Lemma skip_space_int_chars (s : string) :
  all_chars int_char (Py.skip_space s) = true -> all_chars int_char s = true.
Proof.
  induction s as [|c r IH]; [auto|].
  cbn [Py.skip_space]. destruct (Py.int_space c) eqn:E; [|auto].
  intros H. cbn [all_chars]. unfold int_char at 1. rewrite E. cbn. auto.
Qed.

Lemma scan_digits_int_chars (s : string) :
  forall pu acc n v m rest,
    Py.scan_digits s pu acc n = Some (v, m, rest) ->
    all_chars int_char rest = true -> all_chars int_char s = true.
Proof.
  induction s as [|c r IH]; intros pu acc n v m rest; cbn [Py.scan_digits].
  - destruct pu; [discriminate|]. now intros [= _ _ <-].
  - destruct (Py.is_digit c) eqn:Hd.
    + intros H R. cbn [all_chars]. unfold int_char at 1. rewrite Hd.
      rewrite orb_true_r. cbn. eauto.
    + destruct (Ascii.eqb c "_") eqn:Hu.
      * destruct pu; [discriminate|]. intros H R. cbn [all_chars].
        unfold int_char at 1. rewrite Hu, !orb_true_r. cbn. eauto.
      * destruct pu; [discriminate|]. now intros [= _ _ <-].
Qed.

Lemma int_unsigned_int_chars (lim : nat) (s : string) (v : Z) :
  Py.int_unsigned lim s = Some v -> all_chars int_char s = true.
Proof.
  unfold Py.int_unsigned. destruct s as [|c r]; [discriminate|].
  destruct (Ascii.eqb c "_"); [discriminate|].
  destruct (Py.scan_digits (String c r) false 0 0) as [[[v' m] rest]|] eqn:S;
    [|discriminate].
  destruct (Py.skip_space rest) eqn:K; [|discriminate].
  intros _. apply (scan_digits_int_chars _ _ _ _ _ _ _ S).
  apply skip_space_int_chars. now rewrite K.
Qed.

(** An integer literal is made of white space, a sign, digits and
    underscores. *)
Lemma int_int_chars (lim : nat) (s : string) (v : Z) :
  Py.int lim s = Some v -> all_chars int_char s = true.
Proof.
  unfold Py.int. intros H. apply skip_space_int_chars.
  destruct (Py.skip_space s) as [|c r]; [discriminate|].
  destruct (Ascii.eqb c "+") eqn:P.
  - cbn [all_chars]. unfold int_char at 1. rewrite P, !orb_true_r.
    cbn. eapply int_unsigned_int_chars; eauto.
  - destruct (Ascii.eqb c "-") eqn:N.
    + destruct (Py.int_unsigned lim r) as [u|] eqn:U; [|discriminate].
      cbn [all_chars]. unfold int_char at 1. rewrite N, !orb_true_r.
      cbn. eapply int_unsigned_int_chars; eauto.
    + eapply int_unsigned_int_chars; eauto.
Qed.

Lemma lower_size_char (c : ascii) :
  int_char (Py.lower_char c) || Ascii.eqb (Py.lower_char c) "x" = true ->
  size_char c = true.
Proof. each_char c; vm_compute; intros H; try discriminate H; reflexivity. Qed.

Lemma lower_size_chars (s : string) :
  all_chars (fun c => int_char c || Ascii.eqb c "x") (Py.lower s) = true ->
  all_chars size_char s = true.
Proof.
  induction s as [|c r IH]; cbn [Py.lower all_chars]; intros H; [reflexivity|].
  apply andb_true_iff in H as [Hc Hr].
  now rewrite (lower_size_char c Hc), (IH Hr).
Qed.

Lemma all_chars_weaken (p q : ascii -> bool) (s : string) :
  (forall c, p c = true -> q c = true) ->
  all_chars p s = true -> all_chars q s = true.
Proof.
  intros I. induction s as [|c r IH]; cbn [all_chars]; intros H;
    [reflexivity|].
  apply andb_true_iff in H as [Hc Hr]. now rewrite (I c Hc), (IH Hr).
Qed.

(** X18: a size the check accepts is made of digits, the separator,
    white space, signs and underscores only: a decimal point, a unit or
    any other character makes the size invalid. *)
Theorem accepted_size_characters (lim : nat) (s : string) :
  _validate_size_format lim s = true -> all_chars size_char s = true.
Proof.
  intros V. apply validate_size_format_true in V
    as (a & b & w & h & L & A & B & _).
  apply lower_size_chars. rewrite L. cbn [append].
  rewrite all_chars_append. cbn [all_chars].
  assert (W : forall t, all_chars int_char t = true ->
                        all_chars (fun c => int_char c || Ascii.eqb c "x") t
                        = true).
  { intros t. apply all_chars_weaken. intros c ->. reflexivity. }
  rewrite (W a (int_int_chars _ _ _ A)), (W b (int_int_chars _ _ _ B)).
  reflexivity.
Qed.

Lemma accepted_size_characters_witness :
  all_chars size_char " 640X+6_4 " = true.
Proof.
  exact (accepted_size_characters default_max_str_digits " 640X+6_4 "
           eq_refl).
Defined.

(** X19: the text the builder writes for an integer value (heading, fov,
    pitch, radius) is its decimal notation: read with [int] it gives the
    value back, a leading [-] for a negative one included, whatever the
    digit limit as long as the value has at most 640 digits. *)
Theorem integer_text_reads_back (lim : nat) (z : Z) :
  (String.length (format_value (VInt (Z.abs z))) <= 640)%nat ->
  Py.int lim (format_value (VInt z)) = Some z.
Proof.
  cbn [format_value]. intros H. apply int_str_int.
  unfold Py.digits_allowed, Py.str_digits_check_threshold.
  destruct (Nat.ltb_spec 640 (String.length (Py.str_int (Z.abs z))));
    [lia | reflexivity].
Qed.

Lemma integer_text_reads_back_witness :
  Py.int default_max_str_digits (format_value (VInt (-90))) = Some (-90).
Proof.
  apply (integer_text_reads_back default_max_str_digits (-90)).
  cbn. lia.
Defined.
